(** * Inventory allocation engine: requests, assignments and returns

    A shallow embedding of the request / assignment / return handlers of
    [app/blueprints/admin/routes.py] and [app/blueprints/staff/routes.py].

    The relational store is a record of tables, each a finite map from the
    primary key to the row.  A handler is a function from the acting user
    and the store to a response and the store after [db.session.commit()];
    a path that returns before the commit leaves the store as it was.
    Calls to [current_app.logger] are not part of the model. *)

From stdpp Require Import gmap strings list fin_maps pretty.

#[local] Set Warnings "-clear-no-such-hyp".

Open Scope Z_scope.

(** ** Rows

    Only the columns the handlers read or write are kept; the integer
    columns are Python integers.  The primary key of a row is its key in
    the table. *)

Module InventoryItem.
Record t := mk { name : string; quantity_available : Z }.

Definition set_quantity_available (q : Z) (item : t) : t :=
  {| name := name item; quantity_available := q |}.
End InventoryItem.

Module StaffUser.
Record t := mk { full_name : string }.
End StaffUser.

Module ItemRequest.
Record t := mk {
  staff_id : Z;
  item_name : string;
  justification : string;
  status : string
}.

Definition set_status (s : string) (r : t) : t :=
  {| staff_id := staff_id r; item_name := item_name r;
     justification := justification r; status := s |}.
End ItemRequest.

Module ItemAssignment.
Record t := mk {
  item_id : Z;
  staff_id : Z;
  allocation_date : Z;
  return_date : option Z;
  status : string
}.

Definition set_status (s : string) (a : t) : t :=
  {| item_id := item_id a; staff_id := staff_id a;
     allocation_date := allocation_date a; return_date := return_date a;
     status := s |}.

Definition set_return_date (d : option Z) (a : t) : t :=
  {| item_id := item_id a; staff_id := staff_id a;
     allocation_date := allocation_date a; return_date := d;
     status := status a |}.
End ItemAssignment.

(** ** The store *)

Record Db := mkDb {
  items : gmap Z InventoryItem.t;
  staff : gmap Z StaffUser.t;
  requests : gmap Z ItemRequest.t;
  assignments : gmap Z ItemAssignment.t
}.

Definition set_items (f : gmap Z InventoryItem.t → gmap Z InventoryItem.t)
    (db : Db) : Db :=
  {| items := f (items db); staff := staff db;
     requests := requests db; assignments := assignments db |}.

Definition set_requests (f : gmap Z ItemRequest.t → gmap Z ItemRequest.t)
    (db : Db) : Db :=
  {| items := items db; staff := staff db;
     requests := f (requests db); assignments := assignments db |}.

Definition set_assignments
    (f : gmap Z ItemAssignment.t → gmap Z ItemAssignment.t) (db : Db) : Db :=
  {| items := items db; staff := staff db;
     requests := requests db; assignments := f (assignments db) |}.

(** [db.session.add(row)] followed by the commit stores the row under a
    primary key the table does not use yet: one past the largest key
    (keys start at 1). *)
Definition next_id {A} (table : gmap Z A) : Z :=
  1 + foldr Z.max 0 (elements (dom table)).

(** ** The acting user and the responses *)

Record CurrentUser := mkUser {
  is_authenticated : bool;
  user_role : string;
  id : Z
}.

(** What a handler answers: a redirect to an endpoint after
    [flash(message, category)], the 404 of [get_or_404] / [first_or_404],
    the refusal of [login_required], or the 500 of an uncaught exception. *)
Inductive Response :=
  | Redirect (endpoint : string) (message category : string)
  | Abort404
  | LoginRequired
  | InternalError.

Definition View := CurrentUser → Db → Response * Db.

(** ** Decorators *)

Definition login_required (view : View) : View :=
  λ current_user db,
    if is_authenticated current_user then view current_user db
    else (LoginRequired, db).

Definition admin_only (view : View) : View :=
  λ current_user db,
    if negb (is_authenticated current_user)
       || negb (bool_decide (user_role current_user = "admin"))
    then (Redirect "admin.login" "Please log in as admin to continue." "warning", db)
    else view current_user db.

Definition staff_only (view : View) : View :=
  λ current_user db,
    if negb (is_authenticated current_user)
       || negb (bool_decide (user_role current_user = "staff"))
    then (Redirect "staff.login" "Please log in as staff to continue." "warning", db)
    else view current_user db.

(** ** Submitted forms

    The data a bound form carries.  [request_id] and [assignment_id] hold
    the result of [int(form.<field>.data)], [None] when [int] raises. *)

Module ApproveRequestForm.
Record t := mk { request_id : option Z; item_id : Z }.
End ApproveRequestForm.

Module RejectRequestForm.
Record t := mk { request_id : option Z }.
End RejectRequestForm.

Module ManualAssignmentForm.
Record t := mk { item_id : Z; staff_id : Z }.
End ManualAssignmentForm.

Module CompleteReturnForm.
Record t := mk { assignment_id : option Z }.
End CompleteReturnForm.

Module StaffRequestItemForm.
Record t := mk { item_name : string; justification : string }.
End StaffRequestItemForm.

(** Modelled from the spec: the column default of [ItemRequest.status],
    declared with the models, which [submit_request] relies on:
    "creates ItemRequest with status pending". *)
Definition default_request_status : string := "pending".

(** Modelled from the spec: the column [ItemAssignment.return_date],
    declared with the models, is "nullable"; an assignment built without
    it has none. *)
Definition default_return_date : option Z := None.

(** Modelled from the spec: the relationship [ItemAssignment.item],
    declared with the models.  "ItemAssignment.itemId is a strong
    reference", read by "explicit getItem(id) calls returning an optional
    result": the inventory row under [assignment.item_id], if any. *)
Definition assignment_item (db : Db) (assignment : ItemAssignment.t)
    : option InventoryItem.t :=
  items db !! ItemAssignment.item_id assignment.

(** The messages the specification names as signals. *)
Definition AlreadyProcessed : Response :=
  Redirect "admin.requests_queue" "This request has already been processed." "info".

Definition ItemUnavailable : Response :=
  Redirect "admin.requests_queue" "Item is no longer available." "warning".

Definition AlreadyRequested : Response :=
  Redirect "staff.dashboard" "Return already requested. Hang tight!" "info".

(** ** Form validation

    [validate_on_submit] is decided by the form classes and by WTForms,
    from the submitted data and, for a selection field, from the choices
    the handler installs before validating ([_available_item_choices],
    the items with a positive quantity, and [_staff_choices], both read
    from the store).  The form classes are declared outside the two route
    modules, so the handlers take the outcome of the validation as a
    parameter: a function of the store and of the submitted data. *)
Record Forms := mkForms {
  approve_validate_on_submit : Db → ApproveRequestForm.t → bool;
  reject_validate_on_submit : Db → RejectRequestForm.t → bool;
  manual_validate_on_submit : Db → ManualAssignmentForm.t → bool;
  return_validate_on_submit : Db → CompleteReturnForm.t → bool;
  request_validate_on_submit : Db → StaffRequestItemForm.t → bool
}.

Section Handlers.

Variable forms : Forms.
(** Python's [str.strip]. *)
Variable strip : string → string.

(** *** staff/routes.py *)

Definition submit_request (form : StaffRequestItemForm.t) : View :=
  login_required (staff_only (λ current_user db,
    if request_validate_on_submit forms db form then
      let request_record :=
        {| ItemRequest.staff_id := id current_user;
           ItemRequest.item_name := strip (StaffRequestItemForm.item_name form);
           ItemRequest.justification :=
             strip (StaffRequestItemForm.justification form);
           ItemRequest.status := default_request_status |} in
      (Redirect "staff.dashboard"
         "Request submitted. Admin will review shortly." "success",
       set_requests (λ t, <[next_id t := request_record]> t) db)
    else
      (Redirect "staff.dashboard"
         "Please fix the errors and try again." "danger", db))).

Definition request_return (assignment_id : Z) : View :=
  login_required (staff_only (λ current_user db,
    match assignments db !! assignment_id with
    | None => (Abort404, db)
    | Some assignment =>
      if negb (bool_decide
                 (ItemAssignment.staff_id assignment = id current_user))
      then (Abort404, db)
      else if negb (bool_decide
                 (ItemAssignment.status assignment
                    ∈ ["assigned"; "return_requested"]))
      then (Redirect "staff.dashboard"
              "This item cannot be returned right now." "warning", db)
      else if bool_decide
                (ItemAssignment.status assignment = "return_requested")
      then (AlreadyRequested, db)
      else
        (Redirect "staff.dashboard" "Return request sent." "info",
         set_assignments
           (<[assignment_id :=
                ItemAssignment.set_status "return_requested" assignment]>)
           db)
    end)).

(** *** admin/routes.py *)

Definition approve_request (request_id : Z) (form : ApproveRequestForm.t)
    (utcnow : Z) : View :=
  login_required (admin_only (λ current_user db,
    if negb (approve_validate_on_submit forms db form) then
      (Redirect "admin.requests_queue"
         "Could not process request approval. Please recheck the form."
         "danger", db)
    else match ApproveRequestForm.request_id form with
    | None => (InternalError, db)
    | Some form_request_id =>
    if negb (bool_decide (form_request_id = request_id)) then
      (Redirect "admin.requests_queue"
         "Could not process request approval. Please recheck the form."
         "danger", db)
    else match requests db !! request_id with
    | None => (Abort404, db)
    | Some request_record =>
    if negb (bool_decide (ItemRequest.status request_record = "pending"))
    then (AlreadyProcessed, db)
    else match items db !! ApproveRequestForm.item_id form with
    | None => (Abort404, db)
    | Some item =>
    if bool_decide (InventoryItem.quantity_available item ≤ 0)
    then (ItemUnavailable, db)
    else
      let assignment :=
        {| ItemAssignment.item_id := ApproveRequestForm.item_id form;
           ItemAssignment.staff_id := ItemRequest.staff_id request_record;
           ItemAssignment.allocation_date := utcnow;
           ItemAssignment.return_date := default_return_date;
           ItemAssignment.status := "assigned" |} in
      (Redirect "admin.requests_queue"
         "Request approved and item assigned." "success",
       set_assignments (λ t, <[next_id t := assignment]> t)
         (set_requests
            (<[request_id :=
                 ItemRequest.set_status "approved" request_record]>)
            (set_items
               (<[ApproveRequestForm.item_id form :=
                    InventoryItem.set_quantity_available
                      (InventoryItem.quantity_available item - 1) item]>)
               db)))
    end end end)).

Definition reject_request (request_id : Z) (form : RejectRequestForm.t)
    : View :=
  login_required (admin_only (λ current_user db,
    if negb (reject_validate_on_submit forms db form) then
      (Redirect "admin.requests_queue"
         "Could not reject the request. Please retry." "danger", db)
    else match RejectRequestForm.request_id form with
    | None => (InternalError, db)
    | Some form_request_id =>
    if negb (bool_decide (form_request_id = request_id)) then
      (Redirect "admin.requests_queue"
         "Could not reject the request. Please retry." "danger", db)
    else match requests db !! request_id with
    | None => (Abort404, db)
    | Some request_record =>
    if negb (bool_decide (ItemRequest.status request_record = "pending"))
    then (AlreadyProcessed, db)
    else
      (Redirect "admin.requests_queue" "Request rejected." "info",
       set_requests
         (<[request_id := ItemRequest.set_status "rejected" request_record]>)
         db)
    end end)).

Definition manual_assignment (form : ManualAssignmentForm.t) (utcnow : Z)
    : View :=
  login_required (admin_only (λ current_user db,
    if negb (manual_validate_on_submit forms db form) then
      (Redirect "admin.requests_queue"
         "Could not create manual assignment. Check the selections."
         "danger", db)
    else match items db !! ManualAssignmentForm.item_id form with
    | None => (Abort404, db)
    | Some item =>
    match staff db !! ManualAssignmentForm.staff_id form with
    | None => (Abort404, db)
    | Some staff_member =>
    if bool_decide (InventoryItem.quantity_available item ≤ 0)
    then (ItemUnavailable, db)
    else
      let assignment :=
        {| ItemAssignment.item_id := ManualAssignmentForm.item_id form;
           ItemAssignment.staff_id := ManualAssignmentForm.staff_id form;
           ItemAssignment.allocation_date := utcnow;
           ItemAssignment.return_date := default_return_date;
           ItemAssignment.status := "assigned" |} in
      (Redirect "admin.requests_queue"
         (InventoryItem.name item +:+ " assigned to "
            +:+ StaffUser.full_name staff_member +:+ ".")
         "success",
       set_assignments (λ t, <[next_id t := assignment]> t)
         (set_items
            (<[ManualAssignmentForm.item_id form :=
                 InventoryItem.set_quantity_available
                   (InventoryItem.quantity_available item - 1) item]>)
            db))
    end end)).

Definition complete_return (assignment_id : Z) (form : CompleteReturnForm.t)
    (utcnow : Z) : View :=
  login_required (admin_only (λ current_user db,
    if negb (return_validate_on_submit forms db form) then
      (Redirect "admin.requests_queue"
         "Could not process return. Please retry." "danger", db)
    else match CompleteReturnForm.assignment_id form with
    | None => (InternalError, db)
    | Some form_assignment_id =>
    if negb (bool_decide (form_assignment_id = assignment_id)) then
      (Redirect "admin.requests_queue"
         "Could not process return. Please retry." "danger", db)
    else match assignments db !! assignment_id with
    | None => (Abort404, db)
    | Some assignment =>
    if negb (bool_decide
               (ItemAssignment.status assignment = "return_requested"))
    then (Redirect "admin.requests_queue"
            "This assignment is not pending return." "info", db)
    else
      let returned :=
        ItemAssignment.set_return_date (Some utcnow)
          (ItemAssignment.set_status "returned" assignment) in
      let db' := set_assignments (<[assignment_id := returned]>) db in
      (Redirect "admin.requests_queue"
         "Return completed and inventory updated." "success",
       match assignment_item db assignment with
       | Some item =>
         set_items
           (<[ItemAssignment.item_id assignment :=
                InventoryItem.set_quantity_available
                  (InventoryItem.quantity_available item + 1) item]>)
           db'
       | None => db'
       end)
    end end)).

End Handlers.

(** ** Sequences of operations

    The six operations of the allocation engine, each with the actor and
    the data of one HTTP request, and their execution one after the other
    on the store. *)

Inductive Op :=
  | SubmitRequest (current_user : CurrentUser) (form : StaffRequestItemForm.t)
  | ApproveRequest (current_user : CurrentUser) (request_id : Z)
      (form : ApproveRequestForm.t) (utcnow : Z)
  | RejectRequest (current_user : CurrentUser) (request_id : Z)
      (form : RejectRequestForm.t)
  | ManualAssign (current_user : CurrentUser) (form : ManualAssignmentForm.t)
      (utcnow : Z)
  | RequestReturn (current_user : CurrentUser) (assignment_id : Z)
  | CompleteReturn (current_user : CurrentUser) (assignment_id : Z)
      (form : CompleteReturnForm.t) (utcnow : Z).

Definition run_op (forms : Forms) (strip : string → string) (op : Op)
    (db : Db) : Response * Db :=
  match op with
  | SubmitRequest u form => submit_request forms strip form u db
  | ApproveRequest u request_id form utcnow =>
      approve_request forms request_id form utcnow u db
  | RejectRequest u request_id form => reject_request forms request_id form u db
  | ManualAssign u form utcnow => manual_assignment forms form utcnow u db
  | RequestReturn u assignment_id => request_return assignment_id u db
  | CompleteReturn u assignment_id form utcnow =>
      complete_return forms assignment_id form utcnow u db
  end.

Fixpoint run_ops (forms : Forms) (strip : string → string) (ops : list Op)
    (db : Db) : Db :=
  match ops with
  | [] => db
  | op :: ops' => run_ops forms strip ops' (run_op forms strip op db).2
  end.

(** ** State predicates *)

(** Every inventory row has a non-negative quantity. *)
Definition quantities_nonneg (db : Db) : Prop :=
  map_Forall (λ _ item, 0 ≤ InventoryItem.quantity_available item) (items db).

(** An assignment holds one unit of item [i]: it references [i] and has
    not been returned. *)
Definition holds (i : Z) (kv : Z * ItemAssignment.t) : Prop :=
  ItemAssignment.item_id kv.2 = i
  ∧ ItemAssignment.status kv.2 ∈ ["assigned"; "return_requested"].

#[global] Instance holds_dec i kv : Decision (holds i kv).
Proof. unfold holds. apply _. Defined.

(** The number of assignments that hold a unit of item [i]. *)
Definition outstanding (i : Z) (db : Db) : nat :=
  size (filter (holds i) (assignments db)).

(** Units of item [i] on the shelf plus units out with staff; [None] when
    the store has no row for [i]. *)
Definition stock (i : Z) (db : Db) : option Z :=
  (λ item, InventoryItem.quantity_available item + Z.of_nat (outstanding i db))
    <$> items db !! i.

(** A user logged in with the given role. *)
Definition logged_in (role : string) (u : CurrentUser) : Prop :=
  is_authenticated u = true ∧ user_role u = role.

(** A response that flashes under the category "success". *)
Definition succeeded (r : Response) : Prop :=
  match r with
  | Redirect _ _ category => category = "success"
  | _ => False
  end.

(** [op] is an approval or a manual assignment drawing on item [i] that
    passes every guard of its handler before the availability check. *)
Definition allocation_call (forms : Forms) (i : Z) (op : Op) (db : Db) : Prop :=
  match op with
  | ApproveRequest u request_id form _ =>
      logged_in "admin" u
      ∧ approve_validate_on_submit forms db form = true
      ∧ ApproveRequestForm.request_id form = Some request_id
      ∧ ApproveRequestForm.item_id form = i
      ∧ ∃ request_record,
          requests db !! request_id = Some request_record
          ∧ ItemRequest.status request_record = "pending"
  | ManualAssign u form _ =>
      logged_in "admin" u
      ∧ manual_validate_on_submit forms db form = true
      ∧ ManualAssignmentForm.item_id form = i
      ∧ is_Some (staff db !! ManualAssignmentForm.staff_id form)
  | _ => False
  end.

Definition indicator (P : Prop) `{!Decision P} : nat :=
  if decide P then 1%nat else 0%nat.

(** ** Overlapping requests

    A handler reads its rows when it runs its queries and writes them at
    [db.session.commit()].  In between, the session holds the rows it
    loaded: [item.quantity_available -= 1] computes the new quantity from
    the loaded row, and the commit writes that value to the column.
    [approve_request_load] is the handler up to its last guard,
    [commit] is the flush of what the session changed. *)

Inductive Session :=
  | Returned (response : Response)
  | Allocating (response : Response)
      (item_id : Z) (item : InventoryItem.t)
      (request : option (Z * ItemRequest.t))
      (assignment : ItemAssignment.t).

Definition approve_request_load (forms : Forms) (request_id : Z)
    (form : ApproveRequestForm.t) (utcnow : Z) (current_user : CurrentUser)
    (db : Db) : Session :=
  if negb (is_authenticated current_user) then Returned LoginRequired
  else if negb (bool_decide (user_role current_user = "admin")) then
    Returned (Redirect "admin.login" "Please log in as admin to continue."
                "warning")
  else if negb (approve_validate_on_submit forms db form) then
    Returned (Redirect "admin.requests_queue"
                "Could not process request approval. Please recheck the form."
                "danger")
  else match ApproveRequestForm.request_id form with
  | None => Returned InternalError
  | Some form_request_id =>
  if negb (bool_decide (form_request_id = request_id)) then
    Returned (Redirect "admin.requests_queue"
                "Could not process request approval. Please recheck the form."
                "danger")
  else match requests db !! request_id with
  | None => Returned Abort404
  | Some request_record =>
  if negb (bool_decide (ItemRequest.status request_record = "pending"))
  then Returned AlreadyProcessed
  else match items db !! ApproveRequestForm.item_id form with
  | None => Returned Abort404
  | Some item =>
  if bool_decide (InventoryItem.quantity_available item ≤ 0)
  then Returned ItemUnavailable
  else
    Allocating
      (Redirect "admin.requests_queue"
         "Request approved and item assigned." "success")
      (ApproveRequestForm.item_id form) item
      (Some (request_id, request_record))
      {| ItemAssignment.item_id := ApproveRequestForm.item_id form;
         ItemAssignment.staff_id := ItemRequest.staff_id request_record;
         ItemAssignment.allocation_date := utcnow;
         ItemAssignment.return_date := default_return_date;
         ItemAssignment.status := "assigned" |}
  end end end.

Definition manual_assignment_load (forms : Forms)
    (form : ManualAssignmentForm.t) (utcnow : Z) (current_user : CurrentUser)
    (db : Db) : Session :=
  if negb (is_authenticated current_user) then Returned LoginRequired
  else if negb (bool_decide (user_role current_user = "admin")) then
    Returned (Redirect "admin.login" "Please log in as admin to continue."
                "warning")
  else if negb (manual_validate_on_submit forms db form) then
    Returned (Redirect "admin.requests_queue"
                "Could not create manual assignment. Check the selections."
                "danger")
  else match items db !! ManualAssignmentForm.item_id form with
  | None => Returned Abort404
  | Some item =>
  match staff db !! ManualAssignmentForm.staff_id form with
  | None => Returned Abort404
  | Some staff_member =>
  if bool_decide (InventoryItem.quantity_available item ≤ 0)
  then Returned ItemUnavailable
  else
    Allocating
      (Redirect "admin.requests_queue"
         (InventoryItem.name item +:+ " assigned to "
            +:+ StaffUser.full_name staff_member +:+ ".")
         "success")
      (ManualAssignmentForm.item_id form) item None
      {| ItemAssignment.item_id := ManualAssignmentForm.item_id form;
         ItemAssignment.staff_id := ManualAssignmentForm.staff_id form;
         ItemAssignment.allocation_date := utcnow;
         ItemAssignment.return_date := default_return_date;
         ItemAssignment.status := "assigned" |}
  end end.

Definition commit (session : Session) (db : Db) : Response * Db :=
  match session with
  | Returned response => (response, db)
  | Allocating response item_id item request assignment =>
      (response,
       set_assignments (λ t, <[next_id t := assignment]> t)
         (set_requests
            (match request with
             | Some (request_id, _) =>
                 alter (ItemRequest.set_status "approved") request_id
             | None => λ t, t
             end)
            (set_items
               (alter (InventoryItem.set_quantity_available
                         (InventoryItem.quantity_available item - 1))
                  item_id)
               db)))
  end.

(** Two requests served one after the other, and two requests whose
    queries both run before either commits. *)
Definition serial (load1 load2 : Db → Session) (db : Db)
    : Response * Response * Db :=
  let '(response1, db1) := commit (load1 db) db in
  let '(response2, db2) := commit (load2 db1) db1 in
  (response1, response2, db2).

Definition overlapped (load1 load2 : Db → Session) (db : Db)
    : Response * Response * Db :=
  let session1 := load1 db in
  let session2 := load2 db in
  let '(response1, db1) := commit session1 db in
  let '(response2, db2) := commit session2 db1 in
  (response1, response2, db2).

(** What the specification asks of two calls that draw on the last unit
    of an item: one of them succeeds and the other is refused. *)
Definition one_success (response1 response2 : Response) : Prop :=
  (succeeded response1 ∧ response2 = ItemUnavailable)
  ∨ (response1 = ItemUnavailable ∧ succeeded response2).

(** ** Sample data *)

(** Forms that always validate. *)
Definition accepting : Forms :=
  mkForms (λ _ _, true) (λ _ _, true) (λ _ _, true) (λ _ _, true) (λ _ _, true).

Definition admin_user : CurrentUser := mkUser true "admin" 1.
Definition staff_user (staff_id : Z) : CurrentUser := mkUser true "staff" staff_id.

Definition pending_request (staff_id : Z) (justification : string)
    : ItemRequest.t :=
  ItemRequest.mk staff_id "scope" justification "pending".

(** One item with two units, one staff member, nothing requested yet. *)
Definition sample_db : Db :=
  {| items := {[ 1 := InventoryItem.mk "Oscilloscope" 2 ]};
     staff := {[ 7 := StaffUser.mk "Asha" ]};
     requests := ∅;
     assignments := ∅ |}.

(** Three requests for the item are submitted and approved in order, the
    first loan is then handed back. *)
Definition sample_ops : list Op :=
  [ SubmitRequest (staff_user 7) (StaffRequestItemForm.mk "scope" "lab");
    SubmitRequest (staff_user 7) (StaffRequestItemForm.mk "scope" "bench");
    SubmitRequest (staff_user 7) (StaffRequestItemForm.mk "scope" "spare");
    ApproveRequest admin_user 1 (ApproveRequestForm.mk (Some 1) 1) 100;
    ApproveRequest admin_user 2 (ApproveRequestForm.mk (Some 2) 1) 101;
    ApproveRequest admin_user 3 (ApproveRequestForm.mk (Some 3) 1) 102;
    RequestReturn (staff_user 7) 1;
    CompleteReturn admin_user 1 (CompleteReturnForm.mk (Some 1)) 200 ].

(** The store after the three submissions of [sample_ops]. *)
Definition queued_db : Db :=
  {| items := {[ 1 := InventoryItem.mk "Oscilloscope" 2 ]};
     staff := {[ 7 := StaffUser.mk "Asha" ]};
     requests := {[ 1 := pending_request 7 "lab";
                    2 := pending_request 7 "bench";
                    3 := pending_request 7 "spare" ]};
     assignments := ∅ |}.

(** The last unit of an item, wanted by two pending requests. *)
Definition last_unit_db : Db :=
  {| items := {[ 1 := InventoryItem.mk "Oscilloscope" 1 ]};
     staff := {[ 7 := StaffUser.mk "Asha"; 8 := StaffUser.mk "Ravi" ]};
     requests := {[ 1 := pending_request 7 "lab";
                    2 := pending_request 8 "bench" ]};
     assignments := ∅ |}.

(** A loan of the item to staff member 7, one unit left on the shelf. *)
Definition loaned_db (status : string) : Db :=
  {| items := {[ 1 := InventoryItem.mk "Oscilloscope" 1 ]};
     staff := {[ 7 := StaffUser.mk "Asha" ]};
     requests := {[ 1 := ItemRequest.mk 7 "scope" "lab" "approved" ]};
     assignments := {[ 1 := ItemAssignment.mk 1 7 100 None status ]} |}.

(** ** Actors and roles

    The user an operation is called by, and the role its decorators ask
    for: [staff_only] on the staff routes, [admin_only] on the admin
    routes. *)

Definition actor (op : Op) : CurrentUser :=
  match op with
  | SubmitRequest u _ | ApproveRequest u _ _ _ | RejectRequest u _ _
  | ManualAssign u _ _ | RequestReturn u _ | CompleteReturn u _ _ _ => u
  end.

Definition required_role (op : Op) : string :=
  match op with
  | SubmitRequest _ _ | RequestReturn _ _ => "staff"
  | _ => "admin"
  end.

(** The answer of [admin_only] / [staff_only] to a logged-in user of the
    other role. *)
Definition wrong_role (role : string) : Response :=
  Redirect (role +:+ ".login")
    ("Please log in as " +:+ role +:+ " to continue.") "warning".

(** A response that announces a commit: the flash of a return statement
    that follows [db.session.commit()]. *)
Definition announces_commit (r : Response) : Prop :=
  match r with
  | Redirect _ message category =>
      category = "success"
      ∨ message ∈ ["Request rejected."; "Return request sent."]
  | _ => False
  end.

#[global] Instance announces_commit_dec r : Decision (announces_commit r).
Proof. destruct r; simpl; apply _. Defined.

(** ** The life of an assignment

    [advances s s'] : status [s'] is [s] or comes later than [s] in
    "assigned", "return_requested", "returned". *)
Definition advances (s s' : string) : Prop :=
  s' = s
  ∨ (s = "assigned" ∧ s' = "return_requested")
  ∨ (s ∈ ["assigned"; "return_requested"] ∧ s' = "returned").

(** How the row of an assignment may differ from an earlier row under
    the same key: the item, the owner and the allocation date stay, and
    the status advances. *)
Definition assignment_evolves (a a' : ItemAssignment.t) : Prop :=
  ItemAssignment.item_id a' = ItemAssignment.item_id a
  ∧ ItemAssignment.staff_id a' = ItemAssignment.staff_id a
  ∧ ItemAssignment.allocation_date a' = ItemAssignment.allocation_date a
  ∧ advances (ItemAssignment.status a) (ItemAssignment.status a')
  ∧ (ItemAssignment.status a' = ItemAssignment.status a → a' = a).

(** ** The life of a request

    [settles s s'] : status [s'] is [s], or [s] is "pending" and [s'] is
    "approved" or "rejected". *)
Definition settles (s s' : string) : Prop :=
  s' = s ∨ (s = "pending" ∧ s' ∈ ["approved"; "rejected"]).

Definition request_evolves (r r' : ItemRequest.t) : Prop :=
  ItemRequest.staff_id r' = ItemRequest.staff_id r
  ∧ ItemRequest.item_name r' = ItemRequest.item_name r
  ∧ ItemRequest.justification r' = ItemRequest.justification r
  ∧ settles (ItemRequest.status r) (ItemRequest.status r').

(** ** Choices and counters of the admin pages *)

(** [_available_item_choices] and [_staff_choices].  The order in which
    the database returns the rows of [order_by(... .asc())] depends on
    its collation and is a parameter; the decimal rendering of the
    quantity in the label is [pretty]. *)
Definition _available_item_choices
    (order_by_name : list (Z * InventoryItem.t) → list (Z * InventoryItem.t))
    (db : Db) : list (Z * string) :=
  (λ kv : Z * InventoryItem.t,
     (kv.1,
      InventoryItem.name kv.2 +:+ " Â· "
        +:+ pretty (InventoryItem.quantity_available kv.2) +:+ " available"))
    <$> order_by_name
          (map_to_list
             (filter (λ kv : Z * InventoryItem.t,
                        0 < InventoryItem.quantity_available kv.2)
                (items db))).

Definition _staff_choices
    (order_by_full_name : list (Z * StaffUser.t) → list (Z * StaffUser.t))
    (db : Db) : list (Z * string) :=
  (λ kv : Z * StaffUser.t, (kv.1, StaffUser.full_name kv.2))
    <$> order_by_full_name (map_to_list (staff db)).

(** A selection field accepts a submitted value only when it is among
    the choices installed on it: the forms validate an item, or a staff
    member, only when the handler offered it. *)
Definition selects_offered_items
    (order_by_name : list (Z * InventoryItem.t) → list (Z * InventoryItem.t))
    (forms : Forms) : Prop :=
  (∀ db form,
     approve_validate_on_submit forms db form = true →
     ApproveRequestForm.item_id form
       ∈ (_available_item_choices order_by_name db).*1)
  ∧ (∀ db form,
     manual_validate_on_submit forms db form = true →
     ManualAssignmentForm.item_id form
       ∈ (_available_item_choices order_by_name db).*1).

Definition selects_offered_staff
    (order_by_full_name : list (Z * StaffUser.t) → list (Z * StaffUser.t))
    (forms : Forms) : Prop :=
  ∀ db form,
    manual_validate_on_submit forms db form = true →
    ManualAssignmentForm.staff_id form
      ∈ (_staff_choices order_by_full_name db).*1.

(** Forms whose selection fields check the submitted value against the
    choices, and validate nothing else. *)
Definition selecting
    (order_by_name : list (Z * InventoryItem.t) → list (Z * InventoryItem.t))
    (order_by_full_name : list (Z * StaffUser.t) → list (Z * StaffUser.t))
    : Forms :=
  mkForms
    (λ db form,
       bool_decide (ApproveRequestForm.item_id form
                      ∈ (_available_item_choices order_by_name db).*1))
    (λ _ _, true)
    (λ db form,
       bool_decide (ManualAssignmentForm.item_id form
                      ∈ (_available_item_choices order_by_name db).*1)
       && bool_decide (ManualAssignmentForm.staff_id form
                         ∈ (_staff_choices order_by_full_name db).*1))
    (λ _ _, true) (λ _ _, true).

(** The counters of the admin [dashboard]: the number of inventory rows,
    [coalesce(sum(quantity_available), 0)], the number of requests with
    status "pending" and of assignments with status "return_requested";
    and the [active_assignments] of [reports]. *)
Definition inventory_count (db : Db) : nat := size (items db).

Definition inventory_quantity (db : Db) : Z :=
  map_fold (λ _ item total, InventoryItem.quantity_available item + total)
    0 (items db).

Definition pending_requests (db : Db) : nat :=
  size (filter (λ kv : Z * ItemRequest.t, ItemRequest.status kv.2 = "pending")
          (requests db)).

Definition pending_returns (db : Db) : nat :=
  size (filter (λ kv : Z * ItemAssignment.t,
                  ItemAssignment.status kv.2 = "return_requested")
          (assignments db)).

Definition active_assignments (db : Db) : nat :=
  size (filter (λ kv : Z * ItemAssignment.t,
                  ItemAssignment.status kv.2 = "assigned")
          (assignments db)).

(** Every assignment references an inventory row that exists. *)
Definition references_inventory (db : Db) : Prop :=
  map_Forall (λ _ a, is_Some (items db !! ItemAssignment.item_id a))
    (assignments db).

(** What the admin pages account for: the units on the shelves, the
    active assignments and the pending returns. *)
Definition units_accounted (db : Db) : Z :=
  inventory_quantity db
  + Z.of_nat (active_assignments db) + Z.of_nat (pending_returns db).

(** ** Allocating calls

    A call of one of the two handlers that hand out a unit of an item,
    with the operation it is, the item it draws on, and the part of its
    handler that runs before the commit. *)
Inductive Allocation :=
  | Approval (current_user : CurrentUser) (request_id : Z)
      (form : ApproveRequestForm.t) (utcnow : Z)
  | Manual (current_user : CurrentUser) (form : ManualAssignmentForm.t)
      (utcnow : Z).

Definition allocation_op (a : Allocation) : Op :=
  match a with
  | Approval u request_id form utcnow => ApproveRequest u request_id form utcnow
  | Manual u form utcnow => ManualAssign u form utcnow
  end.

Definition allocation_item (a : Allocation) : Z :=
  match a with
  | Approval _ _ form _ => ApproveRequestForm.item_id form
  | Manual _ form _ => ManualAssignmentForm.item_id form
  end.

Definition allocation_load (forms : Forms) (a : Allocation) : Db → Session :=
  match a with
  | Approval u request_id form utcnow =>
      approve_request_load forms request_id form utcnow u
  | Manual u form utcnow => manual_assignment_load forms form utcnow u
  end.

(** The flashes of the approval and of the manual assignment for a form
    that does not validate. *)
Definition ApprovalFormError : Response :=
  Redirect "admin.requests_queue"
    "Could not process request approval. Please recheck the form." "danger".

Definition ManualFormError : Response :=
  Redirect "admin.requests_queue"
    "Could not create manual assignment. Check the selections." "danger".

(** * Properties *)

(** ** Auxiliary facts *)

Lemma foldr_max_ge (l : list Z) (k : Z) : k ∈ l → k ≤ foldr Z.max 0 l.
Proof.
  induction l as [|x l IH]; simpl.
  - intros H. by apply elem_of_nil in H.
  - rewrite elem_of_cons. intros [->|H]; [lia|].
    specialize (IH H). lia.
Qed.

Lemma next_id_fresh {A} (table : gmap Z A) : table !! next_id table = None.
Proof.
  destruct (table !! next_id table) as [x|] eqn:E; [|done].
  assert (next_id table ≤ foldr Z.max 0 (elements (dom table))) as Hle.
  { apply foldr_max_ge, elem_of_elements, elem_of_dom. by exists x. }
  unfold next_id in Hle. lia.
Qed.

Lemma next_id_ne {A} (table : gmap Z A) (k : Z) (x : A) :
  table !! k = Some x → next_id table ≠ k.
Proof. intros H <-. by rewrite next_id_fresh in H. Qed.

Lemma alter_loaded {A} (f : A → A) (m : gmap Z A) (k : Z) (x : A) :
  m !! k = Some x → alter f k m = <[k := f x]> m.
Proof.
  intros Hk. apply map_eq. intros j.
  rewrite lookup_alter, lookup_insert.
  case_decide; simplify_eq; [by rewrite Hk | done].
Qed.

Section filter_size.
Context {A : Type} (P : Z * A → Prop) `{!∀ kv, Decision (P kv)}.

Lemma size_filter_insert_fresh (m : gmap Z A) (k : Z) (x : A) :
  m !! k = None →
  size (filter P (<[k:=x]> m)) = (size (filter P m) + indicator (P (k, x)))%nat.
Proof.
  intros Hk. unfold indicator. rewrite map_filter_insert. case_decide.
  - rewrite map_size_insert_None; [lia|].
    apply map_lookup_filter_None. by left.
  - rewrite delete_id by done. lia.
Qed.

Lemma size_filter_insert_over (m : gmap Z A) (k : Z) (x y : A) :
  m !! k = Some y →
  (size (filter P (<[k:=x]> m)) + indicator (P (k, y)) =
   size (filter P m) + indicator (P (k, x)))%nat.
Proof.
  intros Hk.
  rewrite <-(insert_delete_eq m k x).
  rewrite <-(insert_delete_id m k y) at 2 by done.
  rewrite !size_filter_insert_fresh by apply lookup_delete_eq. lia.
Qed.

End filter_size.

Lemma indicator_holds_new i k j sid d :
  indicator (holds i (k, ItemAssignment.mk j sid d None "assigned"))
  = if decide (i = j) then 1%nat else 0%nat.
Proof.
  unfold indicator, holds; simpl.
  repeat case_decide; set_solver.
Qed.

Lemma indicator_holds_return_requested i k a :
  ItemAssignment.status a ∈ ["assigned"; "return_requested"] →
  indicator (holds i (k, ItemAssignment.set_status "return_requested" a))
  = indicator (holds i (k, a)).
Proof.
  unfold indicator, holds; simpl.
  intros Ha. repeat case_decide; set_solver.
Qed.

Lemma indicator_holds_returned i k d a :
  indicator (holds i (k, ItemAssignment.set_return_date d
                           (ItemAssignment.set_status "returned" a))) = 0%nat.
Proof.
  unfold indicator, holds; simpl.
  case_decide; set_solver.
Qed.

Lemma indicator_holds_active i k a :
  ItemAssignment.status a ∈ ["assigned"; "return_requested"] →
  indicator (holds i (k, a))
  = if decide (i = ItemAssignment.item_id a) then 1%nat else 0%nat.
Proof.
  unfold indicator, holds; simpl. intros Ha.
  repeat case_decide; set_solver.
Qed.

(** ** Case analysis on a handler

    [handler_cases] opens the decorators and walks every guard of a
    handler, leaving one goal per return statement. *)

Ltac open_guards :=
  repeat first
    [ progress simplify_eq/=
    | case_bool_decide
    | case_match ].

Ltac handler_cases :=
  unfold run_op, submit_request, request_return, approve_request,
    reject_request, manual_assignment, complete_return,
    login_required, admin_only, staff_only,
    assignment_item, default_return_date, default_request_status,
    AlreadyProcessed, ItemUnavailable, AlreadyRequested in *;
  open_guards.

Lemma logged_in_admin_only (view : View) u db :
  logged_in "admin" u → login_required (admin_only view) u db = view u db.
Proof.
  intros [Ha Hr]. unfold login_required, admin_only.
  rewrite Ha, Hr. done.
Qed.

Lemma logged_in_staff_only (view : View) u db :
  logged_in "staff" u → login_required (staff_only view) u db = view u db.
Proof.
  intros [Ha Hr]. unfold login_required, staff_only.
  rewrite Ha, Hr. done.
Qed.

(** ** Runs of the sample data *)

Example sample_ops_quantity :
  items (run_ops accepting (λ s, s) sample_ops sample_db) !! 1
  = Some (InventoryItem.mk "Oscilloscope" 1).
Proof. vm_compute. reflexivity. Qed.

Example sample_ops_assignments :
  ItemAssignment.status
    <$> assignments (run_ops accepting (λ s, s) sample_ops sample_db)
  = {[ 1 := "returned"; 2 := "assigned" ]}.
Proof. vm_compute. reflexivity. Qed.

Example sample_submissions :
  run_ops accepting (λ s, s) (take 3 sample_ops) sample_db = queued_db.
Proof. vm_compute. reflexivity. Qed.

(** ** Non-negative quantities *)

Lemma run_op_nonneg forms strip op db :
  quantities_nonneg db → quantities_nonneg (run_op forms strip op db).2.
Proof.
  unfold quantities_nonneg. intros Hinv.
  destruct op; handler_cases; try done;
    apply map_Forall_insert_2; try done; simpl.
  - lia.
  - lia.
  - match goal with
    | H : items db !! _ = Some _ |- _ => apply Hinv in H; simpl in H; lia
    end.
Qed.

(** C1. From a store in which every inventory row has a non-negative
    quantity, every sequence of submit, approve, reject, manual-assign,
    request-return and complete-return calls leads to a store in which
    every inventory row still has a non-negative quantity. *)
Theorem quantity_never_negative forms strip (db0 : Db) (ops : list Op) :
  quantities_nonneg db0 →
  quantities_nonneg (run_ops forms strip ops db0).
Proof.
  revert db0. induction ops as [|op ops IH]; intros db0 H0; simpl.
  - exact H0.
  - apply IH. by apply run_op_nonneg.
Qed.

Lemma sample_db_nonneg : quantities_nonneg sample_db.
Proof.
  unfold quantities_nonneg, sample_db; simpl.
  apply map_Forall_singleton. simpl. lia.
Qed.

Lemma quantity_never_negative_witness :
  quantities_nonneg sample_db
  ∧ quantities_nonneg (run_ops accepting (λ s, s) sample_ops sample_db).
Proof.
  split; [exact sample_db_nonneg|].
  apply (quantity_never_negative accepting (λ s, s) sample_db sample_ops).
  exact sample_db_nonneg.
Defined.

(** ** Conservation of stock *)

Ltac rewrite_item_lookup :=
  match goal with
  | H : items _ !! ?j = _ |- context [ items _ !! ?j ] => rewrite H
  end.

Ltac close_stock i :=
  rewrite ?lookup_insert;
  repeat case_decide; simplify_eq/=;
  try rewrite_item_lookup;
  try destruct (items _ !! i);
  simpl; f_equal; lia.

Ltac overwritten_size i E :=
  match goal with
  | H : assignments ?db !! ?k = Some ?a
    |- context [ <[?k := ?a']> (assignments ?db) ] =>
      pose proof (size_filter_insert_over (holds i) _ _ a' _ H) as E
  end.

(** No operation changes the sum of the units on the shelf and the units
    out with staff, for any item. *)
Lemma run_op_stock forms strip op db i :
  stock i (run_op forms strip op db).2 = stock i db.
Proof.
  unfold stock, outstanding.
  destruct op; handler_cases; try done.
  - (* approve_request *)
    rewrite (size_filter_insert_fresh (holds i)) by apply next_id_fresh.
    rewrite indicator_holds_new. close_stock i.
  - (* manual_assignment *)
    rewrite (size_filter_insert_fresh (holds i)) by apply next_id_fresh.
    rewrite indicator_holds_new. close_stock i.
  - (* request_return *)
    overwritten_size i E.
    rewrite indicator_holds_return_requested in E by done.
    close_stock i.
  - (* complete_return, the item row exists *)
    overwritten_size i E.
    rewrite indicator_holds_returned, indicator_holds_active in E by set_solver.
    close_stock i.
  - (* complete_return, the item row is gone *)
    overwritten_size i E.
    rewrite indicator_holds_returned, indicator_holds_active in E by set_solver.
    close_stock i.
Qed.

Lemma run_ops_stock forms strip ops db i :
  stock i (run_ops forms strip ops db) = stock i db.
Proof.
  revert db. induction ops as [|op ops IH]; intros db; simpl; [done|].
  by rewrite IH, run_op_stock.
Qed.

(** C2. Starting from a store without assignments, after any sequence of
    the six operations every inventory row of the initial store is still
    there, and its initial quantity equals its current quantity plus the
    number of assignments that reference it with status "assigned" or
    "return_requested". *)
Theorem allocation_conserved forms strip (db0 : Db) (ops : list Op)
    (i : Z) (item0 : InventoryItem.t) :
  assignments db0 = ∅ →
  items db0 !! i = Some item0 →
  ∃ item,
    items (run_ops forms strip ops db0) !! i = Some item
    ∧ InventoryItem.quantity_available item0
      = InventoryItem.quantity_available item
        + Z.of_nat (outstanding i (run_ops forms strip ops db0)).
Proof.
  intros Hempty Hi.
  pose proof (run_ops_stock forms strip ops db0 i) as Hs.
  unfold stock in Hs. rewrite Hi in Hs. simpl in Hs.
  unfold outstanding at 2 in Hs. rewrite Hempty in Hs.
  rewrite map_filter_empty, map_size_empty in Hs.
  destruct (items (run_ops forms strip ops db0) !! i) as [item|]; [|done].
  exists item. split; [done|]. simpl in Hs. injection Hs as Hs. lia.
Qed.

Lemma allocation_conserved_witness :
  ∃ item,
    items (run_ops accepting (λ s, s) sample_ops sample_db) !! 1 = Some item
    ∧ 2 = InventoryItem.quantity_available item
          + Z.of_nat (outstanding 1
                        (run_ops accepting (λ s, s) sample_ops sample_db)).
Proof.
  apply (allocation_conserved accepting (λ s, s) sample_db sample_ops 1
           (InventoryItem.mk "Oscilloscope" 2)); reflexivity.
Defined.

(** ** The paths of the handlers

    One lemma per return statement reached by a logged-in actor whose
    form validates; the store after the call is written out in full. *)

Ltac walk_handler :=
  intros; unfold logged_in in *; destruct_and?;
  unfold submit_request, request_return, approve_request,
    reject_request, manual_assignment, complete_return,
    login_required, admin_only, staff_only,
    assignment_item, default_return_date, default_request_status,
    set_items, set_requests, set_assignments,
    InventoryItem.set_quantity_available, ItemRequest.set_status,
    ItemAssignment.set_status, ItemAssignment.set_return_date;
  repeat match goal with
  | H : ?x = _ |- context [ ?x ] => rewrite H; simpl
  end;
  open_guards; try done; try lia; try congruence; try set_solver.

Lemma approve_request_ok forms db u request_id form utcnow request_record item :
  logged_in "admin" u →
  approve_validate_on_submit forms db form = true →
  ApproveRequestForm.request_id form = Some request_id →
  requests db !! request_id = Some request_record →
  ItemRequest.status request_record = "pending" →
  items db !! ApproveRequestForm.item_id form = Some item →
  0 < InventoryItem.quantity_available item →
  approve_request forms request_id form utcnow u db
  = (Redirect "admin.requests_queue"
       "Request approved and item assigned." "success",
     {| items :=
          <[ApproveRequestForm.item_id form :=
              {| InventoryItem.name := InventoryItem.name item;
                 InventoryItem.quantity_available :=
                   InventoryItem.quantity_available item - 1 |}]> (items db);
        staff := staff db;
        requests :=
          <[request_id :=
              {| ItemRequest.staff_id := ItemRequest.staff_id request_record;
                 ItemRequest.item_name := ItemRequest.item_name request_record;
                 ItemRequest.justification :=
                   ItemRequest.justification request_record;
                 ItemRequest.status := "approved" |}]> (requests db);
        assignments :=
          <[next_id (assignments db) :=
              {| ItemAssignment.item_id := ApproveRequestForm.item_id form;
                 ItemAssignment.staff_id := ItemRequest.staff_id request_record;
                 ItemAssignment.allocation_date := utcnow;
                 ItemAssignment.return_date := None;
                 ItemAssignment.status := "assigned" |}]> (assignments db) |}).
Proof. walk_handler. Qed.


Lemma approve_request_unavailable forms db u request_id form utcnow
    request_record item :
  logged_in "admin" u →
  approve_validate_on_submit forms db form = true →
  ApproveRequestForm.request_id form = Some request_id →
  requests db !! request_id = Some request_record →
  ItemRequest.status request_record = "pending" →
  items db !! ApproveRequestForm.item_id form = Some item →
  InventoryItem.quantity_available item ≤ 0 →
  approve_request forms request_id form utcnow u db = (ItemUnavailable, db).
Proof. walk_handler. Qed.


Lemma manual_assignment_ok forms db u form utcnow item staff_member :
  logged_in "admin" u →
  manual_validate_on_submit forms db form = true →
  items db !! ManualAssignmentForm.item_id form = Some item →
  staff db !! ManualAssignmentForm.staff_id form = Some staff_member →
  0 < InventoryItem.quantity_available item →
  manual_assignment forms form utcnow u db
  = (Redirect "admin.requests_queue"
       (InventoryItem.name item +:+ " assigned to "
          +:+ StaffUser.full_name staff_member +:+ ".") "success",
     {| items :=
          <[ManualAssignmentForm.item_id form :=
              {| InventoryItem.name := InventoryItem.name item;
                 InventoryItem.quantity_available :=
                   InventoryItem.quantity_available item - 1 |}]> (items db);
        staff := staff db;
        requests := requests db;
        assignments :=
          <[next_id (assignments db) :=
              {| ItemAssignment.item_id := ManualAssignmentForm.item_id form;
                 ItemAssignment.staff_id := ManualAssignmentForm.staff_id form;
                 ItemAssignment.allocation_date := utcnow;
                 ItemAssignment.return_date := None;
                 ItemAssignment.status := "assigned" |}]> (assignments db) |}).
Proof. walk_handler. Qed.

Lemma manual_assignment_unavailable forms db u form utcnow item staff_member :
  logged_in "admin" u →
  manual_validate_on_submit forms db form = true →
  items db !! ManualAssignmentForm.item_id form = Some item →
  staff db !! ManualAssignmentForm.staff_id form = Some staff_member →
  InventoryItem.quantity_available item ≤ 0 →
  manual_assignment forms form utcnow u db = (ItemUnavailable, db).
Proof. walk_handler. Qed.

Lemma request_return_ok db u assignment_id assignment :
  logged_in "staff" u →
  assignments db !! assignment_id = Some assignment →
  ItemAssignment.staff_id assignment = id u →
  ItemAssignment.status assignment = "assigned" →
  request_return assignment_id u db
  = (Redirect "staff.dashboard" "Return request sent." "info",
     {| items := items db;
        staff := staff db;
        requests := requests db;
        assignments :=
          <[assignment_id :=
              {| ItemAssignment.item_id := ItemAssignment.item_id assignment;
                 ItemAssignment.staff_id := ItemAssignment.staff_id assignment;
                 ItemAssignment.allocation_date :=
                   ItemAssignment.allocation_date assignment;
                 ItemAssignment.return_date :=
                   ItemAssignment.return_date assignment;
                 ItemAssignment.status := "return_requested" |}]>
            (assignments db) |}).
Proof. walk_handler. Qed.

Lemma request_return_again db u assignment_id assignment :
  logged_in "staff" u →
  assignments db !! assignment_id = Some assignment →
  ItemAssignment.staff_id assignment = id u →
  ItemAssignment.status assignment = "return_requested" →
  request_return assignment_id u db = (AlreadyRequested, db).
Proof. walk_handler. Qed.

Lemma complete_return_ok forms db u assignment_id form utcnow assignment :
  logged_in "admin" u →
  return_validate_on_submit forms db form = true →
  CompleteReturnForm.assignment_id form = Some assignment_id →
  assignments db !! assignment_id = Some assignment →
  ItemAssignment.status assignment = "return_requested" →
  complete_return forms assignment_id form utcnow u db
  = (Redirect "admin.requests_queue"
       "Return completed and inventory updated." "success",
     {| items :=
          match items db !! ItemAssignment.item_id assignment with
          | Some item =>
              <[ItemAssignment.item_id assignment :=
                  {| InventoryItem.name := InventoryItem.name item;
                     InventoryItem.quantity_available :=
                       InventoryItem.quantity_available item + 1 |}]>
                (items db)
          | None => items db
          end;
        staff := staff db;
        requests := requests db;
        assignments :=
          <[assignment_id :=
              {| ItemAssignment.item_id := ItemAssignment.item_id assignment;
                 ItemAssignment.staff_id := ItemAssignment.staff_id assignment;
                 ItemAssignment.allocation_date :=
                   ItemAssignment.allocation_date assignment;
                 ItemAssignment.return_date := Some utcnow;
                 ItemAssignment.status := "returned" |}]>
            (assignments db) |}).
Proof. walk_handler. Qed.

Ltac concrete := first [ done | vm_compute; done | lia | by eexists ].

(** ** Approval *)

(** C3. When an admin approves a pending request against an item with a
    positive quantity, the call succeeds and the store changes in exactly
    three places: the item's quantity is one less, the request is
    "approved", and one assignment is added under a key that was unused,
    for that item and the request's staff member, with status
    "assigned". *)
Theorem approve_request_effect forms (db : Db) u request_id form utcnow
    request_record item :
  logged_in "admin" u →
  approve_validate_on_submit forms db form = true →
  ApproveRequestForm.request_id form = Some request_id →
  requests db !! request_id = Some request_record →
  ItemRequest.status request_record = "pending" →
  items db !! ApproveRequestForm.item_id form = Some item →
  0 < InventoryItem.quantity_available item →
  ∃ new_id,
    assignments db !! new_id = None
    ∧ approve_request forms request_id form utcnow u db
      = (Redirect "admin.requests_queue"
           "Request approved and item assigned." "success",
         {| items :=
              <[ApproveRequestForm.item_id form :=
                  {| InventoryItem.name := InventoryItem.name item;
                     InventoryItem.quantity_available :=
                       InventoryItem.quantity_available item - 1 |}]>
                (items db);
            staff := staff db;
            requests :=
              <[request_id :=
                  {| ItemRequest.staff_id := ItemRequest.staff_id request_record;
                     ItemRequest.item_name :=
                       ItemRequest.item_name request_record;
                     ItemRequest.justification :=
                       ItemRequest.justification request_record;
                     ItemRequest.status := "approved" |}]> (requests db);
            assignments :=
              <[new_id :=
                  {| ItemAssignment.item_id := ApproveRequestForm.item_id form;
                     ItemAssignment.staff_id :=
                       ItemRequest.staff_id request_record;
                     ItemAssignment.allocation_date := utcnow;
                     ItemAssignment.return_date := None;
                     ItemAssignment.status := "assigned" |}]>
                (assignments db) |}).
Proof.
  intros. exists (next_id (assignments db)).
  split; [apply next_id_fresh | by apply approve_request_ok].
Qed.

Lemma approve_request_effect_witness :
  ∃ new_id db',
    assignments queued_db !! new_id = None
    ∧ approve_request accepting 1 (ApproveRequestForm.mk (Some 1) 1) 100
        admin_user queued_db
      = (Redirect "admin.requests_queue"
           "Request approved and item assigned." "success", db')
    ∧ items db' !! 1 = Some (InventoryItem.mk "Oscilloscope" 1)
    ∧ ItemRequest.status <$> requests db' !! 1 = Some "approved"
    ∧ assignments db' = {[ new_id := ItemAssignment.mk 1 7 100 None "assigned" ]}.
Proof.
  destruct (approve_request_effect accepting queued_db admin_user 1
              (ApproveRequestForm.mk (Some 1) 1) 100
              (pending_request 7 "lab") (InventoryItem.mk "Oscilloscope" 2))
    as (new_id & Hfresh & Hcall); [concrete..|].
  exists new_id. eexists. split; [exact Hfresh|]. split; [exact Hcall|].
  simpl. rewrite !lookup_insert_eq.
  split; [reflexivity|]. split; [reflexivity|]. apply insert_empty.
Defined.



(** ** Exhausted items *)

Lemma approve_request_exhausted forms db u request_id form utcnow
    request_record item :
  logged_in "admin" u →
  ApproveRequestForm.request_id form = Some request_id →
  requests db !! request_id = Some request_record →
  ItemRequest.status request_record = "pending" →
  items db !! ApproveRequestForm.item_id form = Some item →
  InventoryItem.quantity_available item ≤ 0 →
  approve_request forms request_id form utcnow u db
  = (if approve_validate_on_submit forms db form then ItemUnavailable
     else ApprovalFormError, db).
Proof.
  intros Hu Hf Hr Hp Hi Hq.
  destruct (approve_validate_on_submit forms db form) eqn:Hv.
  - by eapply approve_request_unavailable.
  - revert Hu Hf Hr Hp Hi Hq Hv. unfold ApprovalFormError. walk_handler.
Qed.

Lemma manual_assignment_exhausted forms db u form utcnow item staff_member :
  logged_in "admin" u →
  items db !! ManualAssignmentForm.item_id form = Some item →
  staff db !! ManualAssignmentForm.staff_id form = Some staff_member →
  InventoryItem.quantity_available item ≤ 0 →
  manual_assignment forms form utcnow u db
  = (if manual_validate_on_submit forms db form then ItemUnavailable
     else ManualFormError, db).
Proof.
  intros Hu Hi Hs Hq.
  destruct (manual_validate_on_submit forms db form) eqn:Hv.
  - by eapply manual_assignment_unavailable.
  - revert Hu Hi Hs Hq Hv. unfold ManualFormError. walk_handler.
Qed.

(** C5, as stated, fails on the handlers when the forms check the
    selected item against the choices the handler installs, which hold
    only items with a positive quantity: the approval of a pending
    request against an exhausted item is then answered with the form
    error "Could not process request approval. Please recheck the
    form.", not with "Item is no longer available."; so is the third of
    three approvals against an item with two units. *)
Lemma exhausted_item_form_error :
  let forms := selecting (λ l, l) (λ l, l) in
  let exhausted :=
    set_items (<[1 := InventoryItem.mk "Oscilloscope" 0]>) queued_db in
  let call1 :=
    approve_request forms 1 (ApproveRequestForm.mk (Some 1) 1) 100 admin_user
      queued_db in
  let call2 :=
    approve_request forms 2 (ApproveRequestForm.mk (Some 2) 1) 101 admin_user
      call1.2 in
  let call3 :=
    approve_request forms 3 (ApproveRequestForm.mk (Some 3) 1) 102 admin_user
      call2.2 in
  approve_request forms 1 (ApproveRequestForm.mk (Some 1) 1) 100 admin_user
    exhausted = (ApprovalFormError, exhausted)
  ∧ manual_assignment forms (ManualAssignmentForm.mk 1 7) 100 admin_user
      exhausted = (ManualFormError, exhausted)
  ∧ succeeded call1.1
  ∧ succeeded call2.1
  ∧ items call2.2 !! 1 = Some (InventoryItem.mk "Oscilloscope" 0)
  ∧ call3 = (ApprovalFormError, call2.2)
  ∧ call3.1 ≠ ItemUnavailable.
Proof. vm_compute. repeat split; discriminate. Qed.

(** C5, amended.  Against an item whose quantity is zero or less,
    approving a pending request and assigning manually to an existing
    staff member never succeed and leave the whole store as it was: the
    call answers "Item is no longer available." when its form validates
    and the form error of the handler when it does not.  And when an
    item has two units and three distinct pending requests are approved
    against it one after the other, the first two with forms that
    validate, the first two approvals succeed, the third is refused in
    that way, the quantity ends at zero and the third request is
    untouched, still "pending". *)
Theorem exhausted_item_refused :
  (∀ forms (db : Db) u request_id form utcnow request_record item,
     logged_in "admin" u →
     ApproveRequestForm.request_id form = Some request_id →
     requests db !! request_id = Some request_record →
     ItemRequest.status request_record = "pending" →
     items db !! ApproveRequestForm.item_id form = Some item →
     InventoryItem.quantity_available item ≤ 0 →
     approve_request forms request_id form utcnow u db
     = (if approve_validate_on_submit forms db form then ItemUnavailable
        else ApprovalFormError, db))
  ∧ (∀ forms (db : Db) u form utcnow item staff_member,
     logged_in "admin" u →
     items db !! ManualAssignmentForm.item_id form = Some item →
     staff db !! ManualAssignmentForm.staff_id form = Some staff_member →
     InventoryItem.quantity_available item ≤ 0 →
     manual_assignment forms form utcnow u db
     = (if manual_validate_on_submit forms db form then ItemUnavailable
        else ManualFormError, db))
  ∧ (∀ forms (db : Db) u i item rid1 rid2 rid3 r1 r2 r3 t1 t2 t3,
     let call1 :=
       approve_request forms rid1 (ApproveRequestForm.mk (Some rid1) i) t1 u db in
     let call2 :=
       approve_request forms rid2 (ApproveRequestForm.mk (Some rid2) i) t2 u
         call1.2 in
     let call3 :=
       approve_request forms rid3 (ApproveRequestForm.mk (Some rid3) i) t3 u
         call2.2 in
     logged_in "admin" u →
     items db !! i = Some item →
     InventoryItem.quantity_available item = 2 →
     rid1 ≠ rid2 → rid1 ≠ rid3 → rid2 ≠ rid3 →
     requests db !! rid1 = Some r1 → ItemRequest.status r1 = "pending" →
     requests db !! rid2 = Some r2 → ItemRequest.status r2 = "pending" →
     requests db !! rid3 = Some r3 → ItemRequest.status r3 = "pending" →
     approve_validate_on_submit forms db
       (ApproveRequestForm.mk (Some rid1) i) = true →
     approve_validate_on_submit forms call1.2
       (ApproveRequestForm.mk (Some rid2) i) = true →
     succeeded call1.1
     ∧ succeeded call2.1
     ∧ call3
       = (if approve_validate_on_submit forms call2.2
               (ApproveRequestForm.mk (Some rid3) i)
          then ItemUnavailable else ApprovalFormError,
          call2.2)
     ∧ InventoryItem.quantity_available <$> items call3.2 !! i = Some 0
     ∧ requests call3.2 !! rid3 = Some r3).
Proof.
  split; [|split].
  - intros. by eapply approve_request_exhausted.
  - intros. by eapply manual_assignment_exhausted.
  - intros forms db u i item rid1 rid2 rid3 r1 r2 r3 t1 t2 t3
      call1 call2 call3 Hu Hi Hq N12 N13 N23 R1 P1 R2 P2 R3 P3 V1 V2.
    subst call1 call2 call3.
    rewrite (approve_request_ok forms db u rid1 _ t1 r1 item) in *
      by (done || lia).
    simpl in *.
    rewrite (approve_request_ok forms _ u rid2 _ t2 r2
               {| InventoryItem.name := InventoryItem.name item;
                  InventoryItem.quantity_available :=
                    InventoryItem.quantity_available item - 1 |}) in *
      by (simpl; first [ done | lia | apply lookup_insert_eq
                       | by rewrite lookup_insert_ne ]).
    simpl in *.
    rewrite (approve_request_exhausted forms _ u rid3 _ t3 r3
               {| InventoryItem.name := InventoryItem.name item;
                  InventoryItem.quantity_available :=
                    InventoryItem.quantity_available item - 1 - 1 |})
      by (simpl; first [ done | lia | apply lookup_insert_eq
                       | by rewrite !lookup_insert_ne ]).
    simpl. rewrite lookup_insert_eq, !lookup_insert_ne by done.
    repeat split; try done. simpl. f_equal. lia.
Qed.

Lemma exhausted_item_refused_witness :
  (let exhausted :=
     set_items (<[1 := InventoryItem.mk "Oscilloscope" 0]>) queued_db in
   approve_request (selecting (λ l, l) (λ l, l)) 1
     (ApproveRequestForm.mk (Some 1) 1) 100 admin_user exhausted
   = (ApprovalFormError, exhausted)
   ∧ approve_request accepting 1 (ApproveRequestForm.mk (Some 1) 1) 100
       admin_user exhausted
     = (ItemUnavailable, exhausted)
   ∧ manual_assignment (selecting (λ l, l) (λ l, l))
       (ManualAssignmentForm.mk 1 7) 100 admin_user exhausted
     = (ManualFormError, exhausted))
  ∧ (let forms := selecting (λ l, l) (λ l, l) in
     let call1 :=
       approve_request forms 1 (ApproveRequestForm.mk (Some 1) 1) 100
         admin_user queued_db in
     let call2 :=
       approve_request forms 2 (ApproveRequestForm.mk (Some 2) 1) 101
         admin_user call1.2 in
     let call3 :=
       approve_request forms 3 (ApproveRequestForm.mk (Some 3) 1) 102
         admin_user call2.2 in
     succeeded call1.1
     ∧ succeeded call2.1
     ∧ call3 = (ApprovalFormError, call2.2)
     ∧ InventoryItem.quantity_available <$> items call3.2 !! 1 = Some 0
     ∧ requests call3.2 !! 3 = Some (pending_request 7 "spare"))
  ∧ (let call1 :=
       approve_request accepting 1 (ApproveRequestForm.mk (Some 1) 1) 100
         admin_user queued_db in
     let call2 :=
       approve_request accepting 2 (ApproveRequestForm.mk (Some 2) 1) 101
         admin_user call1.2 in
     let call3 :=
       approve_request accepting 3 (ApproveRequestForm.mk (Some 3) 1) 102
         admin_user call2.2 in
     succeeded call1.1
     ∧ succeeded call2.1
     ∧ call3 = (ItemUnavailable, call2.2)
     ∧ InventoryItem.quantity_available <$> items call3.2 !! 1 = Some 0
     ∧ requests call3.2 !! 3 = Some (pending_request 7 "spare")).
Proof.
  destruct exhausted_item_refused as (Happrove & Hmanual & Hscenario).
  split; [|split].
  - cbv zeta. split; [|split].
    + etrans;
        [ apply (Happrove (selecting (λ l, l) (λ l, l)) _ admin_user 1 _ 100
                   (pending_request 7 "lab")
                   (InventoryItem.mk "Oscilloscope" 0)); concrete
        | vm_compute; reflexivity ].
    + etrans;
        [ apply (Happrove accepting _ admin_user 1 _ 100
                   (pending_request 7 "lab")
                   (InventoryItem.mk "Oscilloscope" 0)); concrete
        | vm_compute; reflexivity ].
    + etrans;
        [ apply (Hmanual (selecting (λ l, l) (λ l, l)) _ admin_user _ 100
                   (InventoryItem.mk "Oscilloscope" 0) (StaffUser.mk "Asha"));
          concrete
        | vm_compute; reflexivity ].
  - opose proof* (Hscenario (selecting (λ l, l) (λ l, l)) queued_db admin_user
                    1 (InventoryItem.mk "Oscilloscope" 2) 1 2 3
                    (pending_request 7 "lab") (pending_request 7 "bench")
                    (pending_request 7 "spare") 100 101 102) as E;
      [concrete..|].
    vm_compute in E |- *. exact E.
  - opose proof* (Hscenario accepting queued_db admin_user
                    1 (InventoryItem.mk "Oscilloscope" 2) 1 2 3
                    (pending_request 7 "lab") (pending_request 7 "bench")
                    (pending_request 7 "spare") 100 101 102) as E;
      [concrete..|].
    vm_compute in E |- *. exact E.
Defined.

(** ** Returns *)

(** C7. When an admin completes the return of an assignment whose status
    is "return_requested", the call succeeds, the assignment becomes
    "returned" with its return date set to the time of the call, and the
    quantity of the referenced item goes up by one; when the store has no
    row for the referenced item, the call succeeds all the same and the
    inventory is left as it was. *)
Theorem complete_return_effect forms (db : Db) u assignment_id form utcnow
    assignment :
  logged_in "admin" u →
  return_validate_on_submit forms db form = true →
  CompleteReturnForm.assignment_id form = Some assignment_id →
  assignments db !! assignment_id = Some assignment →
  ItemAssignment.status assignment = "return_requested" →
  let returned :=
    {| ItemAssignment.item_id := ItemAssignment.item_id assignment;
       ItemAssignment.staff_id := ItemAssignment.staff_id assignment;
       ItemAssignment.allocation_date :=
         ItemAssignment.allocation_date assignment;
       ItemAssignment.return_date := Some utcnow;
       ItemAssignment.status := "returned" |} in
  (∀ item,
     items db !! ItemAssignment.item_id assignment = Some item →
     complete_return forms assignment_id form utcnow u db
     = (Redirect "admin.requests_queue"
          "Return completed and inventory updated." "success",
        {| items :=
             <[ItemAssignment.item_id assignment :=
                 {| InventoryItem.name := InventoryItem.name item;
                    InventoryItem.quantity_available :=
                      InventoryItem.quantity_available item + 1 |}]>
               (items db);
           staff := staff db;
           requests := requests db;
           assignments := <[assignment_id := returned]> (assignments db) |}))
  ∧ (items db !! ItemAssignment.item_id assignment = None →
     complete_return forms assignment_id form utcnow u db
     = (Redirect "admin.requests_queue"
          "Return completed and inventory updated." "success",
        {| items := items db;
           staff := staff db;
           requests := requests db;
           assignments := <[assignment_id := returned]> (assignments db) |})).
Proof.
  intros Hu Hv Hf Ha Hs returned.
  pose proof (complete_return_ok forms db u assignment_id form utcnow
                assignment Hu Hv Hf Ha Hs) as E.
  split.
  - intros item Hi. by rewrite Hi in E.
  - intros Hi. by rewrite Hi in E.
Qed.

Lemma complete_return_effect_witness :
  complete_return accepting 1 (CompleteReturnForm.mk (Some 1)) 200 admin_user
    (loaned_db "return_requested")
  = (Redirect "admin.requests_queue"
       "Return completed and inventory updated." "success",
     {| items := {[ 1 := InventoryItem.mk "Oscilloscope" 2 ]};
        staff := staff (loaned_db "return_requested");
        requests := requests (loaned_db "return_requested");
        assignments :=
          {[ 1 := ItemAssignment.mk 1 7 100 (Some 200) "returned" ]} |})
  ∧ complete_return accepting 1 (CompleteReturnForm.mk (Some 1)) 200 admin_user
      (set_items (λ _, ∅) (loaned_db "return_requested"))
    = (Redirect "admin.requests_queue"
         "Return completed and inventory updated." "success",
       {| items := ∅;
          staff := staff (loaned_db "return_requested");
          requests := requests (loaned_db "return_requested");
          assignments :=
            {[ 1 := ItemAssignment.mk 1 7 100 (Some 200) "returned" ]} |}).
Proof.
  split.
  - destruct (complete_return_effect accepting (loaned_db "return_requested")
                admin_user 1 (CompleteReturnForm.mk (Some 1)) 200
                (ItemAssignment.mk 1 7 100 None "return_requested"))
      as [Hthere _]; [concrete..|].
    rewrite (Hthere (InventoryItem.mk "Oscilloscope" 1)) by concrete.
    vm_compute. reflexivity.
  - destruct (complete_return_effect accepting
                (set_items (λ _, ∅) (loaned_db "return_requested"))
                admin_user 1 (CompleteReturnForm.mk (Some 1)) 200
                (ItemAssignment.mk 1 7 100 None "return_requested"))
      as [_ Hgone]; [concrete..|].
    rewrite Hgone by concrete.
    vm_compute. reflexivity.
Defined.

(** C8. For an assignment owned by the calling staff member: when its
    status is "assigned", requesting the return answers "Return request
    sent." and moves it to "return_requested", and a second request then
    answers "Return already requested. Hang tight!" under the category
    "info" and leaves the store as the first call left it; in general,
    when the status is already "return_requested" the call gives that
    answer and changes nothing. *)
Theorem request_return_idempotent (db : Db) u assignment_id assignment :
  logged_in "staff" u →
  assignments db !! assignment_id = Some assignment →
  ItemAssignment.staff_id assignment = id u →
  (ItemAssignment.status assignment = "assigned" →
   let first := request_return assignment_id u db in
   let second := request_return assignment_id u first.2 in
   first.1 = Redirect "staff.dashboard" "Return request sent." "info"
   ∧ ItemAssignment.status <$> assignments first.2 !! assignment_id
     = Some "return_requested"
   ∧ second = (AlreadyRequested, first.2))
  ∧ (ItemAssignment.status assignment = "return_requested" →
     request_return assignment_id u db = (AlreadyRequested, db)).
Proof.
  intros Hu Ha Ho. split.
  - intros Hs. simpl.
    rewrite (request_return_ok db u assignment_id assignment) by done.
    simpl. rewrite lookup_insert_eq. split; [done|]. split; [done|].
    eapply request_return_again; simpl; [done | apply lookup_insert_eq | ..];
      done.
  - intros Hs. by eapply request_return_again.
Qed.

Lemma request_return_idempotent_witness :
  (let first := request_return 1 (staff_user 7) (loaned_db "assigned") in
   let second := request_return 1 (staff_user 7) first.2 in
   first.1 = Redirect "staff.dashboard" "Return request sent." "info"
   ∧ ItemAssignment.status <$> assignments first.2 !! 1
     = Some "return_requested"
   ∧ second = (AlreadyRequested, first.2))
  ∧ request_return 1 (staff_user 7) (loaned_db "return_requested")
    = (AlreadyRequested, loaned_db "return_requested").
Proof.
  split.
  - apply (request_return_idempotent (loaned_db "assigned") (staff_user 7) 1
             (ItemAssignment.mk 1 7 100 None "assigned")); concrete.
  - apply (request_return_idempotent (loaned_db "return_requested")
             (staff_user 7) 1
             (ItemAssignment.mk 1 7 100 None "return_requested")); concrete.
Defined.

(** C10. When the owner requests the return of an "assigned" assignment,
    the inventory, the staff table and the requests are unchanged, no
    assignment is added or removed, every other assignment is unchanged,
    and the assignment itself keeps its item, owner, allocation date and
    return date and only has its status set to "return_requested". *)
Theorem request_return_frame (db : Db) u assignment_id assignment :
  logged_in "staff" u →
  assignments db !! assignment_id = Some assignment →
  ItemAssignment.staff_id assignment = id u →
  ItemAssignment.status assignment = "assigned" →
  let db' := (request_return assignment_id u db).2 in
  items db' = items db
  ∧ staff db' = staff db
  ∧ requests db' = requests db
  ∧ dom (assignments db') = dom (assignments db)
  ∧ (∀ k, k ≠ assignment_id → assignments db' !! k = assignments db !! k)
  ∧ assignments db' !! assignment_id
    = Some {| ItemAssignment.item_id := ItemAssignment.item_id assignment;
              ItemAssignment.staff_id := ItemAssignment.staff_id assignment;
              ItemAssignment.allocation_date :=
                ItemAssignment.allocation_date assignment;
              ItemAssignment.return_date :=
                ItemAssignment.return_date assignment;
              ItemAssignment.status := "return_requested" |}.
Proof.
  intros Hu Ha Ho Hs. simpl.
  rewrite (request_return_ok db u assignment_id assignment) by done.
  simpl. repeat split.
  - rewrite dom_insert_L. apply elem_of_dom_2 in Ha. set_solver.
  - intros k Hk. by rewrite lookup_insert_ne.
  - apply lookup_insert_eq.
Qed.

Lemma request_return_frame_witness :
  let db' := (request_return 1 (staff_user 7) (loaned_db "assigned")).2 in
  items db' = items (loaned_db "assigned")
  ∧ staff db' = staff (loaned_db "assigned")
  ∧ requests db' = requests (loaned_db "assigned")
  ∧ dom (assignments db') = dom (assignments (loaned_db "assigned"))
  ∧ (∀ k, k ≠ 1 → assignments db' !! k = assignments (loaned_db "assigned") !! k)
  ∧ assignments db' !! 1
    = Some (ItemAssignment.mk 1 7 100 None "return_requested").
Proof.
  apply (request_return_frame (loaned_db "assigned") (staff_user 7) 1
           (ItemAssignment.mk 1 7 100 None "assigned")); concrete.
Defined.

(** C9. Approving a pending request against an item in stock, then having
    the borrower request the return of the assignment the approval
    created, then completing that return: all three calls succeed, and
    the inventory table ends exactly as it was before the approval, so
    the item's quantity is back to its value before the approval. *)
Theorem approve_return_round_trip forms (db : Db) admin borrower request_id
    form t1 return_form t2 request_record item :
  let new_id := next_id (assignments db) in
  let approved := approve_request forms request_id form t1 admin db in
  let requested := request_return new_id borrower approved.2 in
  let completed :=
    complete_return forms new_id return_form t2 admin requested.2 in
  logged_in "admin" admin →
  logged_in "staff" borrower →
  id borrower = ItemRequest.staff_id request_record →
  approve_validate_on_submit forms db form = true →
  ApproveRequestForm.request_id form = Some request_id →
  requests db !! request_id = Some request_record →
  ItemRequest.status request_record = "pending" →
  items db !! ApproveRequestForm.item_id form = Some item →
  0 < InventoryItem.quantity_available item →
  return_validate_on_submit forms requested.2 return_form = true →
  CompleteReturnForm.assignment_id return_form = Some new_id →
  assignments db !! new_id = None
  ∧ ItemAssignment.status <$> assignments approved.2 !! new_id = Some "assigned"
  ∧ succeeded approved.1
  ∧ requested.1 = Redirect "staff.dashboard" "Return request sent." "info"
  ∧ succeeded completed.1
  ∧ ItemAssignment.status <$> assignments completed.2 !! new_id = Some "returned"
  ∧ items completed.2 = items db
  ∧ items completed.2 !! ApproveRequestForm.item_id form = Some item.
Proof.
  intros new_id approved requested completed
    Hadmin Hstaff Hid Hv Hf Hr Hp Hi Hq Hv' Hf'.
  subst approved requested completed.
  rewrite (approve_request_ok forms db admin request_id form t1
             request_record item) in * by done.
  simpl in *.
  rewrite (request_return_ok _ borrower new_id
             {| ItemAssignment.item_id := ApproveRequestForm.item_id form;
                ItemAssignment.staff_id := ItemRequest.staff_id request_record;
                ItemAssignment.allocation_date := t1;
                ItemAssignment.return_date := None;
                ItemAssignment.status := "assigned" |}) in *
    by (simpl; first [ done | apply lookup_insert_eq ]).
  simpl in *.
  rewrite (complete_return_ok forms _ admin new_id return_form t2
             {| ItemAssignment.item_id := ApproveRequestForm.item_id form;
                ItemAssignment.staff_id := ItemRequest.staff_id request_record;
                ItemAssignment.allocation_date := t1;
                ItemAssignment.return_date := None;
                ItemAssignment.status := "return_requested" |})
    by (simpl; first [ done | apply lookup_insert_eq ]).
  simpl. rewrite !lookup_insert_eq. simpl.
  assert (<[ApproveRequestForm.item_id form :=
              {| InventoryItem.name := InventoryItem.name item;
                 InventoryItem.quantity_available :=
                   InventoryItem.quantity_available item - 1 + 1 |}]>
            (<[ApproveRequestForm.item_id form :=
                 {| InventoryItem.name := InventoryItem.name item;
                    InventoryItem.quantity_available :=
                      InventoryItem.quantity_available item - 1 |}]>
               (items db)) = items db) as Hitems.
  { rewrite insert_insert_eq. apply insert_id. rewrite Hi.
    destruct item as [n q]. simpl. do 2 f_equal. lia. }
  rewrite Hitems.
  repeat split; try done.
  - apply next_id_fresh.
  - destruct item as [n q]. simpl. do 2 f_equal. lia.
Qed.

Lemma approve_return_round_trip_witness :
  let approved :=
    approve_request accepting 1 (ApproveRequestForm.mk (Some 1) 1) 100
      admin_user queued_db in
  let requested := request_return 1 (staff_user 7) approved.2 in
  let completed :=
    complete_return accepting 1 (CompleteReturnForm.mk (Some 1)) 200
      admin_user requested.2 in
  InventoryItem.quantity_available <$> items approved.2 !! 1 = Some 1
  ∧ items completed.2 = items queued_db
  ∧ items completed.2 !! 1 = Some (InventoryItem.mk "Oscilloscope" 2).
Proof.
  split; [vm_compute; reflexivity|].
  apply (approve_return_round_trip accepting queued_db admin_user
           (staff_user 7) 1 (ApproveRequestForm.mk (Some 1) 1) 100
           (CompleteReturnForm.mk (Some 1)) 200
           (pending_request 7 "lab") (InventoryItem.mk "Oscilloscope" 2));
    concrete.
Defined.

(** ** The last unit of an item *)

Ltac open_phases :=
  unfold approve_request, manual_assignment, approve_request_load,
    manual_assignment_load, commit, login_required, admin_only,
    default_return_date;
  open_guards; try done.

(** Running the queries and committing at once is the handler. *)
Lemma approve_request_two_phase forms request_id form utcnow u db :
  approve_request forms request_id form utcnow u db
  = commit (approve_request_load forms request_id form utcnow u db) db.
Proof.
  open_phases.
  unfold set_assignments, set_requests, set_items; simpl.
  by erewrite !alter_loaded by done.
Qed.

Lemma manual_assignment_two_phase forms form utcnow u db :
  manual_assignment forms form utcnow u db
  = commit (manual_assignment_load forms form utcnow u db) db.
Proof.
  open_phases.
  unfold set_assignments, set_requests, set_items; simpl.
  by erewrite !alter_loaded by done.
Qed.

Lemma serial_approvals forms rid1 form1 t1 u1 rid2 form2 t2 u2 db :
  serial (approve_request_load forms rid1 form1 t1 u1)
    (approve_request_load forms rid2 form2 t2 u2) db
  = let first := approve_request forms rid1 form1 t1 u1 db in
    let second := approve_request forms rid2 form2 t2 u2 first.2 in
    (first.1, second.1, second.2).
Proof.
  unfold serial. simpl. rewrite !approve_request_two_phase.
  destruct (commit (approve_request_load forms rid1 form1 t1 u1 db) db)
    as [r1 db1]; simpl.
  by destruct (commit (approve_request_load forms rid2 form2 t2 u2 db1) db1).
Qed.

(** C6, as stated, fails on the handlers: when two approvals against the
    last unit of an item both run their queries before either commits,
    both succeed; two assignments are created for the single unit and the
    quantity ends at zero. *)
Lemma exhaustion_race_two_successes :
  items last_unit_db !! 1 = Some (InventoryItem.mk "Oscilloscope" 1)
  ∧ overlapped
      (approve_request_load accepting 1 (ApproveRequestForm.mk (Some 1) 1) 100
         admin_user)
      (approve_request_load accepting 2 (ApproveRequestForm.mk (Some 2) 1) 100
         admin_user)
      last_unit_db
    = (Redirect "admin.requests_queue"
         "Request approved and item assigned." "success",
       Redirect "admin.requests_queue"
         "Request approved and item assigned." "success",
       {| items := {[ 1 := InventoryItem.mk "Oscilloscope" 0 ]};
          staff := staff last_unit_db;
          requests := {[ 1 := ItemRequest.mk 7 "scope" "lab" "approved";
                         2 := ItemRequest.mk 8 "scope" "bench" "approved" ]};
          assignments := {[ 1 := ItemAssignment.mk 1 7 100 None "assigned";
                            2 := ItemAssignment.mk 1 8 100 None "assigned" ]} |})
  ∧ ¬ one_success
        (overlapped
           (approve_request_load accepting 1
              (ApproveRequestForm.mk (Some 1) 1) 100 admin_user)
           (approve_request_load accepting 2
              (ApproveRequestForm.mk (Some 2) 1) 100 admin_user)
           last_unit_db).1.1
        (overlapped
           (approve_request_load accepting 1
              (ApproveRequestForm.mk (Some 1) 1) 100 admin_user)
           (approve_request_load accepting 2
              (ApproveRequestForm.mk (Some 2) 1) 100 admin_user)
           last_unit_db).1.2.
Proof.
  split; [reflexivity|]. split; [vm_compute; reflexivity|].
  vm_compute. intros [[_ H]|[H _]]; discriminate H.
Qed.

Lemma allocation_succeeds forms strip a db i item :
  items db !! i = Some item →
  0 < InventoryItem.quantity_available item →
  allocation_call forms i (allocation_op a) db →
  succeeded (run_op forms strip (allocation_op a) db).1
  ∧ items (run_op forms strip (allocation_op a) db).2 !! i
    = Some {| InventoryItem.name := InventoryItem.name item;
              InventoryItem.quantity_available :=
                InventoryItem.quantity_available item - 1 |}
  ∧ size (assignments (run_op forms strip (allocation_op a) db).2)
    = S (size (assignments db)).
Proof.
  intros Hi Hq Hcall. destruct a as [u request_id form utcnow|u form utcnow];
    simpl in Hcall |- *.
  - destruct Hcall as (Hu & Hv & Hf & <- & r & Hr & Hp).
    rewrite (approve_request_ok forms db u request_id form utcnow r item)
      by done.
    simpl. rewrite lookup_insert_eq.
    split; [done|]. split; [done|]. apply map_size_insert_None, next_id_fresh.
  - destruct Hcall as (Hu & Hv & <- & [s Hs]).
    rewrite (manual_assignment_ok forms db u form utcnow item s) by done.
    simpl. rewrite lookup_insert_eq.
    split; [done|]. split; [done|]. apply map_size_insert_None, next_id_fresh.
Qed.

Lemma allocation_refused forms strip a db item :
  items db !! allocation_item a = Some item →
  InventoryItem.quantity_available item ≤ 0 →
  ¬ succeeded (run_op forms strip (allocation_op a) db).1
  ∧ (run_op forms strip (allocation_op a) db).2 = db
  ∧ (allocation_call forms (allocation_item a) (allocation_op a) db →
     (run_op forms strip (allocation_op a) db).1 = ItemUnavailable).
Proof.
  intros Hi Hq. split; [|split].
  - destruct a; simpl in *; handler_cases; try (by intros ?); lia.
  - destruct a; simpl in *; handler_cases; try done; lia.
  - destruct a as [u request_id form utcnow|u form utcnow]; simpl in *.
    + intros (Hu & Hv & Hf & _ & r & Hr & Hp).
      by rewrite (approve_request_unavailable forms db u request_id form
                    utcnow r item).
    + intros (Hu & Hv & _ & [s Hs]).
      by rewrite (manual_assignment_unavailable forms db u form utcnow item s).
Qed.

Lemma allocation_load_passes forms a db i item :
  items db !! i = Some item →
  0 < InventoryItem.quantity_available item →
  allocation_call forms i (allocation_op a) db →
  ∃ response request assignment,
    allocation_load forms a db = Allocating response i item request assignment.
Proof.
  intros Hi Hq Hcall. destruct a as [u request_id form utcnow|u form utcnow];
    simpl in Hcall |- *.
  - destruct Hcall as ([Ha Hrole] & Hv & Hf & <- & r & Hr & Hp).
    unfold approve_request_load.
    rewrite Ha, Hrole, Hv, Hf, Hr, Hp, Hi. simpl.
    rewrite bool_decide_eq_true_2 by done. simpl.
    rewrite bool_decide_eq_false_2 by lia. eauto.
  - destruct Hcall as ([Ha Hrole] & Hv & <- & [s Hs]).
    unfold manual_assignment_load.
    rewrite Ha, Hrole, Hv, Hi, Hs. simpl.
    rewrite bool_decide_eq_false_2 by lia. eauto.
Qed.

Lemma allocation_load_reads forms a db response k item request assignment :
  allocation_load forms a db = Allocating response k item request assignment →
  k = allocation_item a ∧ items db !! k = Some item.
Proof.
  destruct a; simpl;
    unfold approve_request_load, manual_assignment_load;
    open_guards; intros ?; by simplify_eq.
Qed.

Lemma commit_quantity response k item request assignment db :
  InventoryItem.quantity_available
    <$> items (commit (Allocating response k item request assignment) db).2 !! k
  = (λ _, InventoryItem.quantity_available item - 1) <$> items db !! k.
Proof.
  simpl. rewrite lookup_alter, decide_True by done.
  by destruct (items db !! k).
Qed.

(** C6, amended.  Take an item with a single unit and two calls drawing
    on it, each an approval or a manual assignment, the first of which
    passes the guards of its handler.  When the calls run one after the
    other, the first succeeds and the second does not and changes
    nothing, so one assignment is created and the quantity ends at zero;
    the second is answered "Item is no longer available." whenever it
    passes the guards before the availability check.  When both calls
    run their queries before either commits, the quantity still ends at
    zero, never below. *)
Theorem last_unit_allocated_once forms strip (db : Db) i item
    (a1 a2 : Allocation) :
  let first := run_op forms strip (allocation_op a1) db in
  let second := run_op forms strip (allocation_op a2) first.2 in
  let overlap :=
    overlapped (allocation_load forms a1) (allocation_load forms a2) db in
  items db !! i = Some item →
  InventoryItem.quantity_available item = 1 →
  allocation_call forms i (allocation_op a1) db →
  allocation_item a2 = i →
  succeeded first.1
  ∧ ¬ succeeded second.1
  ∧ second.2 = first.2
  ∧ (allocation_call forms i (allocation_op a2) first.2 →
     second.1 = ItemUnavailable ∧ one_success first.1 second.1)
  ∧ InventoryItem.quantity_available <$> items second.2 !! i = Some 0
  ∧ size (assignments second.2) = S (size (assignments db))
  ∧ InventoryItem.quantity_available <$> items overlap.2 !! i = Some 0.
Proof.
  intros first second overlap Hi Hq Hcall <-.
  destruct (allocation_succeeds forms strip a1 db _ item Hi ltac:(lia) Hcall)
    as (Hok & Hi1 & Hsize).
  fold first in Hok, Hi1, Hsize.
  destruct (allocation_refused forms strip a2 first.2 _ Hi1 ltac:(simpl; lia))
    as (Hno & Hsame & Hunavailable).
  fold second in Hno, Hsame, Hunavailable.
  split; [done|]. split; [done|]. split; [done|]. split.
  { intros H2. specialize (Hunavailable H2).
    split; [done|]. left. by split. }
  rewrite Hsame, Hi1. simpl. rewrite Hq.
  split; [done|]. split; [done|].
  subst overlap. unfold overlapped.
  destruct (allocation_load_passes forms a1 db _ item Hi ltac:(lia) Hcall)
    as (r1 & q1 & s1 & E1).
  rewrite E1.
  destruct (allocation_load forms a2 db) as [r2|r2 k2 item2 q2 s2] eqn:E2;
    simpl.
  - rewrite lookup_alter_eq, Hi. simpl. by rewrite Hq.
  - destruct (allocation_load_reads _ _ _ _ _ _ _ _ E2) as [-> Hread].
    rewrite Hi in Hread. injection Hread as <-.
    rewrite !lookup_alter_eq, Hi. simpl. by rewrite Hq.
Qed.

Lemma last_unit_allocated_once_witness :
  let forms := selecting (λ l, l) (λ l, l) in
  let a1 := Approval admin_user 1 (ApproveRequestForm.mk (Some 1) 1) 100 in
  let a2 := Manual admin_user (ManualAssignmentForm.mk 1 8) 100 in
  let first := run_op forms (λ s, s) (allocation_op a1) last_unit_db in
  let second := run_op forms (λ s, s) (allocation_op a2) first.2 in
  let overlap :=
    overlapped (allocation_load forms a1) (allocation_load forms a2)
      last_unit_db in
  second.1 = ManualFormError
  ∧ succeeded first.1
  ∧ ¬ succeeded second.1
  ∧ second.2 = first.2
  ∧ InventoryItem.quantity_available <$> items second.2 !! 1 = Some 0
  ∧ size (assignments second.2) = 1%nat
  ∧ InventoryItem.quantity_available <$> items overlap.2 !! 1 = Some 0.
Proof.
  intros forms a1 a2 first second overlap.
  split; [vm_compute; reflexivity|].
  destruct (last_unit_allocated_once forms (λ s, s) last_unit_db 1
              (InventoryItem.mk "Oscilloscope" 1) a1 a2)
    as (Hfirst & Hsecond & Hsame & _ & Hquantity & Hsize & Hoverlap).
  - reflexivity.
  - reflexivity.
  - vm_compute. repeat split. by eexists.
  - reflexivity.
  - repeat split; assumption.
Defined.

(** * Further properties of the handlers *)

(** ** Who may call what *)

(** X1. An operation called by anyone but a logged-in user of the role its
    route asks for changes nothing: an anonymous caller gets the refusal
    of [login_required], a logged-in user of another role is sent to the
    login page of the role with a warning. *)
Theorem unauthorized_call_refused forms strip (op : Op) (db : Db) :
  ¬ logged_in (required_role op) (actor op) →
  run_op forms strip op db
  = (if is_authenticated (actor op) then wrong_role (required_role op)
     else LoginRequired,
     db).
Proof.
  unfold logged_in. intros Hno.
  destruct op; simpl in Hno |- *;
    unfold submit_request, request_return, approve_request, reject_request,
      manual_assignment, complete_return, login_required, admin_only,
      staff_only;
    destruct (is_authenticated current_user); simpl; try done;
    case_bool_decide; simpl; try done; exfalso; by apply Hno.
Qed.

Lemma unauthorized_call_refused_witness :
  run_op accepting (λ s, s)
    (ApproveRequest (staff_user 7) 1 (ApproveRequestForm.mk (Some 1) 1) 100)
    queued_db
  = (Redirect "admin.login" "Please log in as admin to continue." "warning",
     queued_db)
  ∧ run_op accepting (λ s, s)
      (RequestReturn (mkUser false "" 0) 1) (loaned_db "assigned")
    = (LoginRequired, loaned_db "assigned").
Proof.
  split.
  - apply (unauthorized_call_refused accepting (λ s, s)
             (ApproveRequest (staff_user 7) 1
                (ApproveRequestForm.mk (Some 1) 1) 100) queued_db).
    intros [_ H]. discriminate H.
  - apply (unauthorized_call_refused accepting (λ s, s)
             (RequestReturn (mkUser false "" 0) 1) (loaned_db "assigned")).
    intros [H _]. discriminate H.
Defined.

Lemma request_return_not_found (db : Db) u assignment_id :
  logged_in "staff" u →
  (∀ assignment,
     assignments db !! assignment_id = Some assignment →
     ItemAssignment.staff_id assignment ≠ id u) →
  request_return assignment_id u db = (Abort404, db).
Proof.
  intros [Ha Hr] Hforeign.
  unfold request_return, login_required, staff_only.
  rewrite Ha, Hr. simpl.
  destruct (assignments db !! assignment_id) as [assignment|] eqn:E; [|done].
  case_bool_decide; [|done].
  by destruct (Hforeign assignment).
Qed.

(** X2. A staff member who asks for the return of an assignment that is
    not theirs gets the same 404 as for an assignment that does not
    exist, whatever its status, and nothing changes. *)
Theorem request_return_foreign (db : Db) u assignment_id :
  logged_in "staff" u →
  (∀ assignment,
     assignments db !! assignment_id = Some assignment →
     ItemAssignment.staff_id assignment ≠ id u) →
  request_return assignment_id u db = (Abort404, db).
Proof.
  intros [Ha Hr] Hforeign.
  unfold request_return, login_required, staff_only.
  rewrite Ha, Hr. simpl.
  destruct (assignments db !! assignment_id) as [assignment|] eqn:E.
  - case_bool_decide as Howner; [|done].
    by destruct (Hforeign assignment).
  - done.
Qed.

Lemma request_return_foreign_witness :
  request_return 1 (staff_user 8) (loaned_db "assigned")
  = (Abort404, loaned_db "assigned")
  ∧ request_return 5 (staff_user 7) (loaned_db "assigned")
    = (Abort404, loaned_db "assigned").
Proof.
  split.
  - apply (request_return_foreign (loaned_db "assigned") (staff_user 8) 1);
      [concrete|].
    intros assignment H. vm_compute in H. injection H as <-. discriminate.
  - apply (request_return_foreign (loaned_db "assigned") (staff_user 7) 5);
      [concrete|].
    intros assignment H. vm_compute in H. discriminate H.
Defined.

(** ** Refusals *)

(** X3. Whatever the caller, the form and the store, an operation either
    leaves the store exactly as it was or answers with the message of a
    commit (a flash under "success", "Request rejected." or "Return
    request sent."): a 404, a 500, a login refusal, a warning or an
    error message never comes with a change. *)
Theorem refusals_change_nothing forms strip (op : Op) (db : Db) :
  announces_commit (run_op forms strip op db).1
  ∨ (run_op forms strip op db).2 = db.
Proof.
  destruct op; handler_cases;
    first [ by right | left; simpl; set_solver ].
Qed.

(** X4. A key that selects no row ends the call with a 404 and no change:
    an unknown request on approval or rejection, an unknown item on
    approval (the request stays "pending") or on manual assignment, an
    unknown staff member on manual assignment, an unknown assignment on
    the completion of a return. *)
Theorem missing_rows_not_found forms (db : Db) u :
  logged_in "admin" u →
  (∀ request_id form utcnow,
     approve_validate_on_submit forms db form = true →
     ApproveRequestForm.request_id form = Some request_id →
     requests db !! request_id = None →
     approve_request forms request_id form utcnow u db = (Abort404, db))
  ∧ (∀ request_id form utcnow request_record,
     approve_validate_on_submit forms db form = true →
     ApproveRequestForm.request_id form = Some request_id →
     requests db !! request_id = Some request_record →
     ItemRequest.status request_record = "pending" →
     items db !! ApproveRequestForm.item_id form = None →
     approve_request forms request_id form utcnow u db = (Abort404, db))
  ∧ (∀ request_id form,
     reject_validate_on_submit forms db form = true →
     RejectRequestForm.request_id form = Some request_id →
     requests db !! request_id = None →
     reject_request forms request_id form u db = (Abort404, db))
  ∧ (∀ form utcnow,
     manual_validate_on_submit forms db form = true →
     items db !! ManualAssignmentForm.item_id form = None
     ∨ staff db !! ManualAssignmentForm.staff_id form = None →
     manual_assignment forms form utcnow u db = (Abort404, db))
  ∧ (∀ assignment_id form utcnow,
     return_validate_on_submit forms db form = true →
     CompleteReturnForm.assignment_id form = Some assignment_id →
     assignments db !! assignment_id = None →
     complete_return forms assignment_id form utcnow u db = (Abort404, db)).
Proof.
  intros Hu. repeat split.
  - walk_handler.
  - walk_handler.
  - walk_handler.
  - intros form utcnow Hv [H|H]; walk_handler.
  - walk_handler.
Qed.

Lemma missing_rows_not_found_witness :
  approve_request accepting 9 (ApproveRequestForm.mk (Some 9) 1) 100
    admin_user queued_db = (Abort404, queued_db)
  ∧ approve_request accepting 1 (ApproveRequestForm.mk (Some 1) 4) 100
      admin_user queued_db = (Abort404, queued_db)
  ∧ manual_assignment accepting (ManualAssignmentForm.mk 1 9) 100
      admin_user queued_db = (Abort404, queued_db)
  ∧ complete_return accepting 3 (CompleteReturnForm.mk (Some 3)) 100
      admin_user queued_db = (Abort404, queued_db).
Proof.
  destruct (missing_rows_not_found accepting queued_db admin_user)
    as (Hrequest & Hitem & _ & Hmanual & Hreturn); [concrete|].
  split; [apply Hrequest; concrete|].
  split; [apply (Hitem 1 _ 100 (pending_request 7 "lab")); concrete|].
  split; [apply Hmanual; [concrete | right; concrete]|].
  apply Hreturn; concrete.
Defined.

(** ** Rows over a sequence of operations *)

Lemma request_evolves_refl r : request_evolves r r.
Proof. unfold request_evolves, settles. auto. Qed.

Lemma request_evolves_trans r1 r2 r3 :
  request_evolves r1 r2 → request_evolves r2 r3 → request_evolves r1 r3.
Proof.
  unfold request_evolves, settles.
  intros (A1 & B1 & C1 & H12) (A2 & B2 & C2 & H23).
  repeat split; try congruence.
  destruct H12 as [E|[E H]], H23 as [E'|[E' H']].
  - left. congruence.
  - right. split; [congruence | done].
  - right. split; [done | by rewrite E'].
  - rewrite E' in H. set_solver.
Qed.

Lemma request_evolves_settled r r' :
  request_evolves r r' → ItemRequest.status r ≠ "pending" → r' = r.
Proof.
  unfold request_evolves, settles. destruct r, r'; simpl.
  intros (-> & -> & -> & [->|[? _]]); done.
Qed.

Lemma run_op_request forms strip op db request_id r :
  requests db !! request_id = Some r →
  ∃ r', requests (run_op forms strip op db).2 !! request_id = Some r'
        ∧ request_evolves r r'.
Proof.
  intros Hr.
  destruct op; handler_cases;
    try (exists r; split; [done | apply request_evolves_refl]).
  - (* submit_request *)
    exists r. split; [|apply request_evolves_refl].
    rewrite lookup_insert_ne; [done|]. by eapply next_id_ne.
  - (* approve_request *)
    match goal with
    | |- context [ <[?k := _]> (requests db) ] =>
        destruct (decide (k = request_id)) as [->|Hne]
    end.
    + rewrite lookup_insert_eq. eexists. split; [done|].
      simplify_eq. unfold request_evolves, settles; simpl.
      repeat split; try done. right. split; [done|set_solver].
    + rewrite lookup_insert_ne by done.
      exists r. split; [done | apply request_evolves_refl].
  - (* reject_request *)
    match goal with
    | |- context [ <[?k := _]> (requests db) ] =>
        destruct (decide (k = request_id)) as [->|Hne]
    end.
    + rewrite lookup_insert_eq. eexists. split; [done|].
      simplify_eq. unfold request_evolves, settles; simpl.
      repeat split; try done. right. split; [done|set_solver].
    + rewrite lookup_insert_ne by done.
      exists r. split; [done | apply request_evolves_refl].
Qed.

Lemma run_ops_request forms strip ops db request_id r :
  requests db !! request_id = Some r →
  ∃ r', requests (run_ops forms strip ops db) !! request_id = Some r'
        ∧ request_evolves r r'.
Proof.
  revert db r. induction ops as [|op ops IH]; intros db r Hr; simpl.
  - exists r. split; [done | apply request_evolves_refl].
  - destruct (run_op_request forms strip op db request_id r Hr)
      as (r1 & Hr1 & E1).
    destruct (IH _ _ Hr1) as (r2 & Hr2 & E2).
    exists r2. split; [done|]. by eapply request_evolves_trans.
Qed.

(** X5. Over any sequence of the six operations a request is never
    deleted and never handed to another staff member: it keeps its owner,
    item name and justification, and its status changes at most once,
    from "pending" to "approved" or "rejected".  A request that is no
    longer "pending" keeps its row unchanged for good. *)
Theorem request_settles_once forms strip (ops : list Op) (db : Db)
    request_id request_record :
  requests db !! request_id = Some request_record →
  ∃ r',
    requests (run_ops forms strip ops db) !! request_id = Some r'
    ∧ ItemRequest.staff_id r' = ItemRequest.staff_id request_record
    ∧ ItemRequest.item_name r' = ItemRequest.item_name request_record
    ∧ ItemRequest.justification r' = ItemRequest.justification request_record
    ∧ (ItemRequest.status r' = ItemRequest.status request_record
       ∨ (ItemRequest.status request_record = "pending"
          ∧ ItemRequest.status r' ∈ ["approved"; "rejected"]))
    ∧ (ItemRequest.status request_record ≠ "pending" → r' = request_record).
Proof.
  intros Hr.
  destruct (run_ops_request forms strip ops db request_id request_record Hr)
    as (r' & Hr' & E).
  exists r'. split; [done|].
  pose proof (request_evolves_settled _ _ E) as Hsettled.
  destruct E as (? & ? & ? & ?). done.
Qed.

Lemma request_settles_once_witness :
  ∃ r',
    requests (run_ops accepting (λ s, s) (drop 3 sample_ops) queued_db) !! 1
    = Some r'
    ∧ ItemRequest.staff_id r' = 7
    ∧ ItemRequest.item_name r' = "scope"
    ∧ ItemRequest.justification r' = "lab"
    ∧ (ItemRequest.status r' = "pending"
       ∨ ("pending" = "pending"
          ∧ ItemRequest.status r' ∈ ["approved"; "rejected"]))
    ∧ ("pending" ≠ "pending" → r' = pending_request 7 "lab").
Proof.
  apply (request_settles_once accepting (λ s, s) (drop 3 sample_ops)
           queued_db 1 (pending_request 7 "lab")).
  reflexivity.
Defined.

Lemma advances_refl s : advances s s.
Proof. by left. Qed.

Lemma advances_trans s1 s2 s3 : advances s1 s2 → advances s2 s3 → advances s1 s3.
Proof.
  unfold advances.
  intros [->|[[-> ->]|[H ->]]] [->|[[E ->]|[H' ->]]];
    try discriminate E; set_solver.
Qed.

Lemma advances_antisym s s' : advances s s' → advances s' s → s' = s.
Proof.
  unfold advances.
  intros [->|[[-> ->]|[H ->]]] [E|[[E E']|[H' E]]];
    try done; try discriminate; set_solver.
Qed.

Lemma assignment_evolves_refl a : assignment_evolves a a.
Proof. unfold assignment_evolves. auto using advances_refl. Qed.

Lemma assignment_evolves_trans a1 a2 a3 :
  assignment_evolves a1 a2 → assignment_evolves a2 a3 →
  assignment_evolves a1 a3.
Proof.
  unfold assignment_evolves.
  intros (A1 & B1 & C1 & H12 & S12) (A2 & B2 & C2 & H23 & S23).
  repeat split; try congruence.
  - by eapply advances_trans.
  - intros E. rewrite E in H23.
    pose proof (advances_antisym _ _ H12 H23) as E2.
    rewrite (S12 E2) in *. by apply S23.
Qed.

Lemma run_op_assignment forms strip op db assignment_id a :
  assignments db !! assignment_id = Some a →
  ∃ a', assignments (run_op forms strip op db).2 !! assignment_id = Some a'
        ∧ assignment_evolves a a'.
Proof.
  intros Ha.
  destruct op; handler_cases;
    try (exists a; split; [done | apply assignment_evolves_refl]).
  - (* approve_request *)
    exists a. split; [|apply assignment_evolves_refl].
    rewrite lookup_insert_ne; [done|]. by eapply next_id_ne.
  - (* manual_assignment *)
    exists a. split; [|apply assignment_evolves_refl].
    rewrite lookup_insert_ne; [done|]. by eapply next_id_ne.
  - (* request_return *)
    match goal with
    | |- context [ <[?k := _]> (assignments db) ] =>
        destruct (decide (k = assignment_id)) as [->|Hne]
    end.
    + rewrite lookup_insert_eq. eexists. split; [done|].
      destruct a; simplify_eq/=. unfold assignment_evolves, advances; simpl.
      repeat split; try done; try (intros ?; congruence); set_solver.
    + rewrite lookup_insert_ne by done.
      exists a. split; [done | apply assignment_evolves_refl].
  - (* complete_return, the item row exists *)
    match goal with
    | |- context [ <[?k := _]> (assignments db) ] =>
        destruct (decide (k = assignment_id)) as [->|Hne]
    end.
    + rewrite lookup_insert_eq. eexists. split; [done|].
      destruct a; simplify_eq/=. unfold assignment_evolves, advances; simpl.
      repeat split; try done; try (intros ?; congruence); set_solver.
    + rewrite lookup_insert_ne by done.
      exists a. split; [done | apply assignment_evolves_refl].
  - (* complete_return, the item row is gone *)
    match goal with
    | |- context [ <[?k := _]> (assignments db) ] =>
        destruct (decide (k = assignment_id)) as [->|Hne]
    end.
    + rewrite lookup_insert_eq. eexists. split; [done|].
      destruct a; simplify_eq/=. unfold assignment_evolves, advances; simpl.
      repeat split; try done; try (intros ?; congruence); set_solver.
    + rewrite lookup_insert_ne by done.
      exists a. split; [done | apply assignment_evolves_refl].
Qed.

Lemma run_ops_assignment forms strip ops db assignment_id a :
  assignments db !! assignment_id = Some a →
  ∃ a', assignments (run_ops forms strip ops db) !! assignment_id = Some a'
        ∧ assignment_evolves a a'.
Proof.
  revert db a. induction ops as [|op ops IH]; intros db a Ha; simpl.
  - exists a. split; [done | apply assignment_evolves_refl].
  - destruct (run_op_assignment forms strip op db assignment_id a Ha)
      as (a1 & Ha1 & E1).
    destruct (IH _ _ Ha1) as (a2 & Ha2 & E2).
    exists a2. split; [done|]. by eapply assignment_evolves_trans.
Qed.

(** X6. Over any sequence of the six operations an assignment is never
    deleted and never moved to another item or staff member; its status
    only advances along "assigned", "return_requested", "returned", and
    as long as the status is the same the whole row is the same.  An
    assignment that is "returned" (or has any status outside the two
    active ones) keeps its row unchanged for good. *)
Theorem assignment_only_advances forms strip (ops : list Op) (db : Db)
    assignment_id assignment :
  assignments db !! assignment_id = Some assignment →
  ∃ a',
    assignments (run_ops forms strip ops db) !! assignment_id = Some a'
    ∧ ItemAssignment.item_id a' = ItemAssignment.item_id assignment
    ∧ ItemAssignment.staff_id a' = ItemAssignment.staff_id assignment
    ∧ ItemAssignment.allocation_date a'
      = ItemAssignment.allocation_date assignment
    ∧ advances (ItemAssignment.status assignment) (ItemAssignment.status a')
    ∧ (ItemAssignment.status a' = ItemAssignment.status assignment →
       a' = assignment)
    ∧ (ItemAssignment.status assignment ∉ ["assigned"; "return_requested"] →
       a' = assignment).
Proof.
  intros Ha.
  destruct (run_ops_assignment forms strip ops db assignment_id assignment Ha)
    as (a' & Ha' & E).
  exists a'. split; [done|].
  destruct E as (? & ? & ? & Hadv & Hsame).
  repeat split; try done.
  intros Hfinished. apply Hsame.
  destruct Hadv as [->|[[E _]|[Hin _]]]; [done|..].
  - rewrite E in Hfinished. set_solver.
  - done.
Qed.

Lemma assignment_only_advances_witness :
  ∃ a',
    assignments (run_ops accepting (λ s, s)
                   [ RequestReturn (staff_user 7) 1;
                     CompleteReturn admin_user 1
                       (CompleteReturnForm.mk (Some 1)) 200;
                     RequestReturn (staff_user 7) 1 ]
                   (loaned_db "assigned")) !! 1 = Some a'
    ∧ ItemAssignment.item_id a' = 1
    ∧ ItemAssignment.staff_id a' = 7
    ∧ ItemAssignment.allocation_date a' = 100
    ∧ advances "assigned" (ItemAssignment.status a')
    ∧ (ItemAssignment.status a' = "assigned" →
       a' = ItemAssignment.mk 1 7 100 None "assigned")
    ∧ ("assigned" ∉ ["assigned"; "return_requested"] →
       a' = ItemAssignment.mk 1 7 100 None "assigned").
Proof.
  apply (assignment_only_advances accepting (λ s, s) _ (loaned_db "assigned")
           1 (ItemAssignment.mk 1 7 100 None "assigned")).
  reflexivity.
Defined.

(** ** Tables the operations leave alone *)

Lemma run_op_tables forms strip op db :
  staff (run_op forms strip op db).2 = staff db
  ∧ InventoryItem.name <$> items (run_op forms strip op db).2
    = InventoryItem.name <$> items db.
Proof.
  destruct op; handler_cases; split; try done;
    rewrite fmap_insert; apply insert_id; rewrite lookup_fmap;
    by match goal with H : items db !! _ = Some _ |- _ => rewrite H end.
Qed.

(** X7. No sequence of the six operations touches the staff table, and
    none adds, removes or renames an inventory row: the inventory keeps
    its keys and the name under each key, only quantities move, and the
    number of inventory rows shown on the dashboard stays the same. *)
Theorem staff_and_catalogue_fixed forms strip (ops : list Op) (db : Db) :
  staff (run_ops forms strip ops db) = staff db
  ∧ InventoryItem.name <$> items (run_ops forms strip ops db)
    = InventoryItem.name <$> items db
  ∧ dom (items (run_ops forms strip ops db)) = dom (items db)
  ∧ inventory_count (run_ops forms strip ops db) = inventory_count db.
Proof.
  cut (staff (run_ops forms strip ops db) = staff db
       ∧ InventoryItem.name <$> items (run_ops forms strip ops db)
         = InventoryItem.name <$> items db
       ∧ dom (items (run_ops forms strip ops db)) = dom (items db)).
  { intros (? & ? & Hdom). repeat split; try done.
    unfold inventory_count. by rewrite <-!size_dom, Hdom. }
  assert (staff (run_ops forms strip ops db) = staff db
          ∧ InventoryItem.name <$> items (run_ops forms strip ops db)
            = InventoryItem.name <$> items db) as [Hs Hn].
  { revert db. induction ops as [|op ops IH]; intros db; simpl; [done|].
    destruct (IH (run_op forms strip op db).2) as [-> ->].
    apply run_op_tables. }
  split; [done|]. split; [done|].
  by rewrite <-(dom_fmap_L InventoryItem.name), Hn, dom_fmap_L.
Qed.

(** ** No overselling *)

Lemma run_ops_nonneg forms strip ops db :
  quantities_nonneg db → quantities_nonneg (run_ops forms strip ops db).
Proof.
  revert db. induction ops as [|op ops IH]; intros db H; simpl; [done|].
  by apply IH, run_op_nonneg.
Qed.

(** X8. Starting from a store without assignments and without negative
    quantities, after any sequence of the six operations the number of
    assignments of an item that are out ("assigned" or
    "return_requested") never exceeds the item's initial quantity, and
    the item's quantity lies between zero and its initial quantity. *)
Theorem never_oversold forms strip (db0 : Db) (ops : list Op)
    (i : Z) (item0 : InventoryItem.t) :
  assignments db0 = ∅ →
  quantities_nonneg db0 →
  items db0 !! i = Some item0 →
  ∃ item,
    items (run_ops forms strip ops db0) !! i = Some item
    ∧ 0 ≤ InventoryItem.quantity_available item
        ≤ InventoryItem.quantity_available item0
    ∧ Z.of_nat (outstanding i (run_ops forms strip ops db0))
      ≤ InventoryItem.quantity_available item0.
Proof.
  intros Hempty Hnn Hi.
  pose proof (run_ops_stock forms strip ops db0 i) as Hs.
  unfold stock in Hs. rewrite Hi in Hs. simpl in Hs.
  unfold outstanding at 2 in Hs. rewrite Hempty in Hs.
  rewrite map_filter_empty, map_size_empty in Hs.
  destruct (items (run_ops forms strip ops db0) !! i) as [item|] eqn:E;
    [|done].
  exists item. split; [done|]. simpl in Hs. injection Hs as Hs.
  pose proof (run_ops_nonneg forms strip ops db0 Hnn i item E) as Hq.
  simpl in Hq. lia.
Qed.

Lemma never_oversold_witness :
  ∃ item,
    items (run_ops accepting (λ s, s) sample_ops sample_db) !! 1 = Some item
    ∧ 0 ≤ InventoryItem.quantity_available item ≤ 2
    ∧ Z.of_nat (outstanding 1 (run_ops accepting (λ s, s) sample_ops sample_db))
      ≤ 2.
Proof.
  apply (never_oversold accepting (λ s, s) sample_db sample_ops 1
           (InventoryItem.mk "Oscilloscope" 2));
    [reflexivity | exact sample_db_nonneg | reflexivity].
Defined.

(** ** The remaining successful paths *)

Lemma reject_request_ok forms db u request_id form request_record :
  logged_in "admin" u →
  reject_validate_on_submit forms db form = true →
  RejectRequestForm.request_id form = Some request_id →
  requests db !! request_id = Some request_record →
  ItemRequest.status request_record = "pending" →
  reject_request forms request_id form u db
  = (Redirect "admin.requests_queue" "Request rejected." "info",
     {| items := items db;
        staff := staff db;
        requests :=
          <[request_id :=
              {| ItemRequest.staff_id := ItemRequest.staff_id request_record;
                 ItemRequest.item_name := ItemRequest.item_name request_record;
                 ItemRequest.justification :=
                   ItemRequest.justification request_record;
                 ItemRequest.status := "rejected" |}]> (requests db);
        assignments := assignments db |}).
Proof. walk_handler. Qed.

Lemma submit_request_ok forms strip db u form :
  logged_in "staff" u →
  request_validate_on_submit forms db form = true →
  submit_request forms strip form u db
  = (Redirect "staff.dashboard"
       "Request submitted. Admin will review shortly." "success",
     {| items := items db;
        staff := staff db;
        requests :=
          <[next_id (requests db) :=
              {| ItemRequest.staff_id := id u;
                 ItemRequest.item_name :=
                   strip (StaffRequestItemForm.item_name form);
                 ItemRequest.justification :=
                   strip (StaffRequestItemForm.justification form);
                 ItemRequest.status := "pending" |}]> (requests db);
        assignments := assignments db |}).
Proof. walk_handler. Qed.

Lemma complete_return_not_requested forms db u assignment_id form utcnow
    assignment :
  logged_in "admin" u →
  return_validate_on_submit forms db form = true →
  CompleteReturnForm.assignment_id form = Some assignment_id →
  assignments db !! assignment_id = Some assignment →
  ItemAssignment.status assignment ≠ "return_requested" →
  complete_return forms assignment_id form utcnow u db
  = (Redirect "admin.requests_queue"
       "This assignment is not pending return." "info", db).
Proof. walk_handler. Qed.

(** X9. When an admin rejects a pending request, the call answers
    "Request rejected." and the only change to the store is the status of
    that request, now "rejected": the inventory, the staff table, the
    assignments and every other request are as before. *)
Theorem reject_request_effect forms (db : Db) u request_id form
    request_record :
  logged_in "admin" u →
  reject_validate_on_submit forms db form = true →
  RejectRequestForm.request_id form = Some request_id →
  requests db !! request_id = Some request_record →
  ItemRequest.status request_record = "pending" →
  let result := reject_request forms request_id form u db in
  result.1 = Redirect "admin.requests_queue" "Request rejected." "info"
  ∧ items result.2 = items db
  ∧ staff result.2 = staff db
  ∧ assignments result.2 = assignments db
  ∧ dom (requests result.2) = dom (requests db)
  ∧ (∀ k, k ≠ request_id → requests result.2 !! k = requests db !! k)
  ∧ requests result.2 !! request_id
    = Some {| ItemRequest.staff_id := ItemRequest.staff_id request_record;
              ItemRequest.item_name := ItemRequest.item_name request_record;
              ItemRequest.justification :=
                ItemRequest.justification request_record;
              ItemRequest.status := "rejected" |}.
Proof.
  intros Hu Hv Hf Hr Hp. simpl.
  rewrite (reject_request_ok forms db u request_id form request_record)
    by done.
  simpl. repeat split.
  - rewrite dom_insert_L. apply elem_of_dom_2 in Hr. set_solver.
  - intros k Hk. by rewrite lookup_insert_ne.
  - apply lookup_insert_eq.
Qed.

Lemma reject_request_effect_witness :
  let result :=
    reject_request accepting 2 (RejectRequestForm.mk (Some 2)) admin_user
      queued_db in
  result.1 = Redirect "admin.requests_queue" "Request rejected." "info"
  ∧ items result.2 = items queued_db
  ∧ staff result.2 = staff queued_db
  ∧ assignments result.2 = assignments queued_db
  ∧ dom (requests result.2) = dom (requests queued_db)
  ∧ (∀ k, k ≠ 2 → requests result.2 !! k = requests queued_db !! k)
  ∧ requests result.2 !! 2 = Some (ItemRequest.mk 7 "scope" "bench" "rejected").
Proof.
  apply (reject_request_effect accepting queued_db admin_user 2
           (RejectRequestForm.mk (Some 2)) (pending_request 7 "bench"));
    concrete.
Defined.

(** X10. When an admin assigns an item with a positive quantity to an
    existing staff member by hand, the call succeeds with the message
    "<item name> assigned to <staff name>.", the item's quantity is one
    less, one assignment of that item to that staff member with status
    "assigned" is added under a key that was unused, and the requests and
    the staff table are untouched. *)
Theorem manual_assignment_effect forms (db : Db) u form utcnow item
    staff_member :
  logged_in "admin" u →
  manual_validate_on_submit forms db form = true →
  items db !! ManualAssignmentForm.item_id form = Some item →
  staff db !! ManualAssignmentForm.staff_id form = Some staff_member →
  0 < InventoryItem.quantity_available item →
  ∃ new_id,
    assignments db !! new_id = None
    ∧ manual_assignment forms form utcnow u db
      = (Redirect "admin.requests_queue"
           (InventoryItem.name item +:+ " assigned to "
              +:+ StaffUser.full_name staff_member +:+ ".") "success",
         {| items :=
              <[ManualAssignmentForm.item_id form :=
                  {| InventoryItem.name := InventoryItem.name item;
                     InventoryItem.quantity_available :=
                       InventoryItem.quantity_available item - 1 |}]>
                (items db);
            staff := staff db;
            requests := requests db;
            assignments :=
              <[new_id :=
                  {| ItemAssignment.item_id := ManualAssignmentForm.item_id form;
                     ItemAssignment.staff_id :=
                       ManualAssignmentForm.staff_id form;
                     ItemAssignment.allocation_date := utcnow;
                     ItemAssignment.return_date := None;
                     ItemAssignment.status := "assigned" |}]>
                (assignments db) |}).
Proof.
  intros. exists (next_id (assignments db)).
  split; [apply next_id_fresh | by apply manual_assignment_ok].
Qed.

Lemma manual_assignment_effect_witness :
  ∃ new_id db',
    assignments sample_db !! new_id = None
    ∧ manual_assignment accepting (ManualAssignmentForm.mk 1 7) 100
        admin_user sample_db
      = (Redirect "admin.requests_queue" "Oscilloscope assigned to Asha."
           "success", db')
    ∧ items db' !! 1 = Some (InventoryItem.mk "Oscilloscope" 1)
    ∧ assignments db' = {[ new_id := ItemAssignment.mk 1 7 100 None "assigned" ]}.
Proof.
  destruct (manual_assignment_effect accepting sample_db admin_user
              (ManualAssignmentForm.mk 1 7) 100
              (InventoryItem.mk "Oscilloscope" 2) (StaffUser.mk "Asha"))
    as (new_id & Hfresh & Hcall); [concrete..|].
  exists new_id. eexists. split; [exact Hfresh|]. split; [exact Hcall|].
  simpl. rewrite !lookup_insert_eq.
  split; [reflexivity|]. apply insert_empty.
Defined.

(** X11. A request submitted by a logged-in staff member with a valid
    form is stored under a key that was unused, owned by that staff
    member, with the stripped item name and justification and status
    "pending"; no existing request, no assignment and no inventory row
    changes.  With a form that does not validate nothing is stored. *)
Theorem submit_request_effect forms strip (db : Db) u form :
  logged_in "staff" u →
  (request_validate_on_submit forms db form = true →
   ∃ new_id,
     requests db !! new_id = None
     ∧ submit_request forms strip form u db
       = (Redirect "staff.dashboard"
            "Request submitted. Admin will review shortly." "success",
          {| items := items db;
             staff := staff db;
             requests :=
               <[new_id :=
                   {| ItemRequest.staff_id := id u;
                      ItemRequest.item_name :=
                        strip (StaffRequestItemForm.item_name form);
                      ItemRequest.justification :=
                        strip (StaffRequestItemForm.justification form);
                      ItemRequest.status := "pending" |}]> (requests db);
             assignments := assignments db |}))
  ∧ (request_validate_on_submit forms db form = false →
     submit_request forms strip form u db
     = (Redirect "staff.dashboard" "Please fix the errors and try again."
          "danger", db)).
Proof.
  intros Hu. split.
  - intros Hv. exists (next_id (requests db)).
    split; [apply next_id_fresh | by apply submit_request_ok].
  - revert Hu. walk_handler.
Qed.

Lemma submit_request_effect_witness :
  ∃ new_id,
    requests queued_db !! new_id = None
    ∧ (submit_request accepting (λ s, s)
         (StaffRequestItemForm.mk "probe" "repairs") (staff_user 7)
         queued_db).2
      = set_requests
          (<[new_id := ItemRequest.mk 7 "probe" "repairs" "pending"]>)
          queued_db.
Proof.
  destruct (submit_request_effect accepting (λ s, s) queued_db (staff_user 7)
              (StaffRequestItemForm.mk "probe" "repairs")) as [Hvalid _];
    [concrete|].
  destruct Hvalid as (new_id & Hfresh & Hcall); [concrete|].
  exists new_id. split; [exact Hfresh|]. by rewrite Hcall.
Defined.

(** ** Calls in the wrong state *)

(** X12. The completion of a return is refused, with "This assignment is
    not pending return." and no change, for an assignment whose status is
    anything but "return_requested"; a return request is refused, with
    "This item cannot be returned right now." and no change, for an
    assignment of the caller whose status is neither "assigned" nor
    "return_requested". *)
Theorem wrong_state_refused forms (db : Db) assignment_id assignment :
  assignments db !! assignment_id = Some assignment →
  (∀ u form utcnow,
     logged_in "admin" u →
     return_validate_on_submit forms db form = true →
     CompleteReturnForm.assignment_id form = Some assignment_id →
     ItemAssignment.status assignment ≠ "return_requested" →
     complete_return forms assignment_id form utcnow u db
     = (Redirect "admin.requests_queue"
          "This assignment is not pending return." "info", db))
  ∧ (∀ u,
     logged_in "staff" u →
     ItemAssignment.staff_id assignment = id u →
     ItemAssignment.status assignment ∉ ["assigned"; "return_requested"] →
     request_return assignment_id u db
     = (Redirect "staff.dashboard"
          "This item cannot be returned right now." "warning", db)).
Proof.
  intros Ha. split.
  - intros. by eapply complete_return_not_requested.
  - revert Ha. walk_handler.
Qed.

Lemma wrong_state_refused_witness :
  complete_return accepting 1 (CompleteReturnForm.mk (Some 1)) 200 admin_user
    (loaned_db "assigned")
  = (Redirect "admin.requests_queue"
       "This assignment is not pending return." "info", loaned_db "assigned")
  ∧ request_return 1 (staff_user 7) (loaned_db "returned")
    = (Redirect "staff.dashboard"
         "This item cannot be returned right now." "warning",
       loaned_db "returned").
Proof.
  split.
  - destruct (wrong_state_refused accepting (loaned_db "assigned") 1
                (ItemAssignment.mk 1 7 100 None "assigned")) as [H _];
      [concrete|].
    apply H; concrete.
  - destruct (wrong_state_refused accepting (loaned_db "returned") 1
                (ItemAssignment.mk 1 7 100 None "returned")) as [_ H];
      [concrete|].
    apply H; [concrete | concrete | set_solver].
Defined.

(** ** Calls one after the other *)



(** X14. Completing the same return twice credits the item once: the
    second call is answered "This assignment is not pending return." and
    changes nothing, so the quantity ends exactly one above its value
    before the first call. *)
Theorem return_completed_once forms (db : Db) u assignment_id form utcnow
    assignment item u' form' utcnow' :
  let completed := complete_return forms assignment_id form utcnow u db in
  logged_in "admin" u →
  logged_in "admin" u' →
  return_validate_on_submit forms db form = true →
  CompleteReturnForm.assignment_id form = Some assignment_id →
  assignments db !! assignment_id = Some assignment →
  ItemAssignment.status assignment = "return_requested" →
  items db !! ItemAssignment.item_id assignment = Some item →
  return_validate_on_submit forms completed.2 form' = true →
  CompleteReturnForm.assignment_id form' = Some assignment_id →
  succeeded completed.1
  ∧ complete_return forms assignment_id form' utcnow' u' completed.2
    = (Redirect "admin.requests_queue"
         "This assignment is not pending return." "info", completed.2)
  ∧ InventoryItem.quantity_available
      <$> items completed.2 !! ItemAssignment.item_id assignment
    = Some (InventoryItem.quantity_available item + 1).
Proof.
  intros completed Hu Hu' Hv Hf Ha Hs Hi. subst completed.
  rewrite (complete_return_ok forms db u assignment_id form utcnow assignment)
    by done.
  rewrite Hi. simpl. intros Hv' Hf'.
  split; [done|]. split.
  - eapply complete_return_not_requested; simpl;
      [done | done | done | apply lookup_insert_eq | done].
  - by rewrite lookup_insert_eq.
Qed.

Lemma return_completed_once_witness :
  let completed :=
    complete_return accepting 1 (CompleteReturnForm.mk (Some 1)) 200
      admin_user (loaned_db "return_requested") in
  succeeded completed.1
  ∧ complete_return accepting 1 (CompleteReturnForm.mk (Some 1)) 201
      admin_user completed.2
    = (Redirect "admin.requests_queue"
         "This assignment is not pending return." "info", completed.2)
  ∧ InventoryItem.quantity_available <$> items completed.2 !! 1 = Some 2.
Proof.
  apply (return_completed_once accepting (loaned_db "return_requested")
           admin_user 1 (CompleteReturnForm.mk (Some 1)) 200
           (ItemAssignment.mk 1 7 100 None "return_requested")
           (InventoryItem.mk "Oscilloscope" 1) admin_user
           (CompleteReturnForm.mk (Some 1)) 201); concrete.
Defined.

(** X15. From submission to loan: when a staff member submits a request
    with a valid form and an admin then approves it against an item in
    stock, the assignment created belongs to the staff member who
    submitted the request, and only that staff member can then ask for
    its return. *)
Theorem approved_item_goes_to_requester forms strip (db : Db) requester
    request_form admin form utcnow item other :
  let request_id := next_id (requests db) in
  let new_id := next_id (assignments db) in
  let submitted := submit_request forms strip request_form requester db in
  let approved :=
    approve_request forms request_id form utcnow admin submitted.2 in
  logged_in "staff" requester →
  logged_in "admin" admin →
  logged_in "staff" other →
  request_validate_on_submit forms db request_form = true →
  approve_validate_on_submit forms submitted.2 form = true →
  ApproveRequestForm.request_id form = Some request_id →
  items db !! ApproveRequestForm.item_id form = Some item →
  0 < InventoryItem.quantity_available item →
  succeeded submitted.1
  ∧ succeeded approved.1
  ∧ assignments approved.2 !! new_id
    = Some {| ItemAssignment.item_id := ApproveRequestForm.item_id form;
              ItemAssignment.staff_id := id requester;
              ItemAssignment.allocation_date := utcnow;
              ItemAssignment.return_date := None;
              ItemAssignment.status := "assigned" |}
  ∧ (request_return new_id requester approved.2).1
    = Redirect "staff.dashboard" "Return request sent." "info"
  ∧ (id other ≠ id requester →
     request_return new_id other approved.2 = (Abort404, approved.2)).
Proof.
  intros request_id new_id submitted approved
    Hrequester Hadmin Hother Hv Hv' Hf Hi Hq.
  subst submitted approved.
  rewrite (submit_request_ok forms strip db requester request_form) in *
    by done.
  simpl in *.
  rewrite (approve_request_ok forms _ admin request_id form utcnow
             {| ItemRequest.staff_id := id requester;
                ItemRequest.item_name :=
                  strip (StaffRequestItemForm.item_name request_form);
                ItemRequest.justification :=
                  strip (StaffRequestItemForm.justification request_form);
                ItemRequest.status := "pending" |} item)
    by (simpl; first [ done | apply lookup_insert_eq ]).
  simpl. rewrite lookup_insert_eq.
  split; [done|]. split; [done|]. split; [done|]. split.
  - erewrite request_return_ok; simpl;
      [done | done | apply lookup_insert_eq | done | done].
  - intros Hne. apply request_return_not_found; [done|]. simpl.
    intros assignment. rewrite lookup_insert_eq. intros [= <-]. simpl.
    congruence.
Qed.

Lemma approved_item_goes_to_requester_witness :
  let submitted :=
    submit_request accepting (λ s, s) (StaffRequestItemForm.mk "scope" "lab")
      (staff_user 7) sample_db in
  let approved :=
    approve_request accepting 1 (ApproveRequestForm.mk (Some 1) 1) 100
      admin_user submitted.2 in
  succeeded submitted.1
  ∧ succeeded approved.1
  ∧ assignments approved.2 !! 1
    = Some (ItemAssignment.mk 1 7 100 None "assigned")
  ∧ (request_return 1 (staff_user 7) approved.2).1
    = Redirect "staff.dashboard" "Return request sent." "info"
  ∧ (8 ≠ 7 → request_return 1 (staff_user 8) approved.2
             = (Abort404, approved.2)).
Proof.
  apply (approved_item_goes_to_requester accepting (λ s, s) sample_db
           (staff_user 7) (StaffRequestItemForm.mk "scope" "lab") admin_user
           (ApproveRequestForm.mk (Some 1) 1) 100
           (InventoryItem.mk "Oscilloscope" 2) (staff_user 8)); concrete.
Defined.

(** X16. A manual assignment of an item in stock, then the return request
    of the staff member it was assigned to, then the completion of that
    return: all three calls succeed, the assignment ends "returned" with
    its return date set, and the inventory and the requests end exactly
    as they were before the assignment. *)
Theorem manual_return_round_trip forms (db : Db) admin borrower form t1
    return_form t2 item staff_member :
  let new_id := next_id (assignments db) in
  let assigned := manual_assignment forms form t1 admin db in
  let requested := request_return new_id borrower assigned.2 in
  let completed :=
    complete_return forms new_id return_form t2 admin requested.2 in
  logged_in "admin" admin →
  logged_in "staff" borrower →
  id borrower = ManualAssignmentForm.staff_id form →
  manual_validate_on_submit forms db form = true →
  items db !! ManualAssignmentForm.item_id form = Some item →
  staff db !! ManualAssignmentForm.staff_id form = Some staff_member →
  0 < InventoryItem.quantity_available item →
  return_validate_on_submit forms requested.2 return_form = true →
  CompleteReturnForm.assignment_id return_form = Some new_id →
  succeeded assigned.1
  ∧ requested.1 = Redirect "staff.dashboard" "Return request sent." "info"
  ∧ succeeded completed.1
  ∧ assignments completed.2 !! new_id
    = Some {| ItemAssignment.item_id := ManualAssignmentForm.item_id form;
              ItemAssignment.staff_id := ManualAssignmentForm.staff_id form;
              ItemAssignment.allocation_date := t1;
              ItemAssignment.return_date := Some t2;
              ItemAssignment.status := "returned" |}
  ∧ items completed.2 = items db
  ∧ requests completed.2 = requests db.
Proof.
  intros new_id assigned requested completed
    Hadmin Hstaff Hid Hv Hi Hs Hq Hv' Hf'.
  subst assigned requested completed.
  rewrite (manual_assignment_ok forms db admin form t1 item staff_member)
    in * by done.
  simpl in *.
  rewrite (request_return_ok _ borrower new_id
             {| ItemAssignment.item_id := ManualAssignmentForm.item_id form;
                ItemAssignment.staff_id := ManualAssignmentForm.staff_id form;
                ItemAssignment.allocation_date := t1;
                ItemAssignment.return_date := None;
                ItemAssignment.status := "assigned" |}) in *
    by (simpl; first [ done | apply lookup_insert_eq ]).
  simpl in *.
  rewrite (complete_return_ok forms _ admin new_id return_form t2
             {| ItemAssignment.item_id := ManualAssignmentForm.item_id form;
                ItemAssignment.staff_id := ManualAssignmentForm.staff_id form;
                ItemAssignment.allocation_date := t1;
                ItemAssignment.return_date := None;
                ItemAssignment.status := "return_requested" |})
    by (simpl; first [ done | apply lookup_insert_eq ]).
  simpl. rewrite !lookup_insert_eq. simpl.
  repeat split; try done.
  rewrite insert_insert_eq. apply insert_id. rewrite Hi.
  destruct item as [n q]. simpl. do 2 f_equal. lia.
Qed.

Lemma manual_return_round_trip_witness :
  let assigned :=
    manual_assignment accepting (ManualAssignmentForm.mk 1 7) 100 admin_user
      sample_db in
  let requested := request_return 1 (staff_user 7) assigned.2 in
  let completed :=
    complete_return accepting 1 (CompleteReturnForm.mk (Some 1)) 200
      admin_user requested.2 in
  succeeded assigned.1
  ∧ requested.1 = Redirect "staff.dashboard" "Return request sent." "info"
  ∧ succeeded completed.1
  ∧ assignments completed.2 !! 1
    = Some (ItemAssignment.mk 1 7 100 (Some 200) "returned")
  ∧ items completed.2 = items sample_db
  ∧ requests completed.2 = requests sample_db.
Proof.
  apply (manual_return_round_trip accepting sample_db admin_user
           (staff_user 7) (ManualAssignmentForm.mk 1 7) 100
           (CompleteReturnForm.mk (Some 1)) 200
           (InventoryItem.mk "Oscilloscope" 2) (StaffUser.mk "Asha"));
    concrete.
Defined.

(** ** The identifier in the form *)

(** X17. The approval, the rejection and the completion of a return
    compare the identifier submitted in the form with the one in the
    URL.  When the form validates but carries another identifier, the
    call ends with its "Could not ..." error message and no change; when
    [int] cannot read the submitted identifier the call ends with a 500
    and no change.  This holds whatever the rows under either
    identifier. *)
Theorem mismatched_form_rejected forms (db : Db) u :
  logged_in "admin" u →
  (∀ request_id form utcnow,
     approve_validate_on_submit forms db form = true →
     ApproveRequestForm.request_id form ≠ Some request_id →
     approve_request forms request_id form utcnow u db
     = (match ApproveRequestForm.request_id form with
        | Some _ =>
            Redirect "admin.requests_queue"
              "Could not process request approval. Please recheck the form."
              "danger"
        | None => InternalError
        end, db))
  ∧ (∀ request_id form,
     reject_validate_on_submit forms db form = true →
     RejectRequestForm.request_id form ≠ Some request_id →
     reject_request forms request_id form u db
     = (match RejectRequestForm.request_id form with
        | Some _ =>
            Redirect "admin.requests_queue"
              "Could not reject the request. Please retry." "danger"
        | None => InternalError
        end, db))
  ∧ (∀ assignment_id form utcnow,
     return_validate_on_submit forms db form = true →
     CompleteReturnForm.assignment_id form ≠ Some assignment_id →
     complete_return forms assignment_id form utcnow u db
     = (match CompleteReturnForm.assignment_id form with
        | Some _ =>
            Redirect "admin.requests_queue"
              "Could not process return. Please retry." "danger"
        | None => InternalError
        end, db)).
Proof.
  intros [Ha Hr].
  split; [|split]; intros;
    unfold approve_request, reject_request, complete_return,
      login_required, admin_only;
    rewrite Ha, Hr; simpl;
    repeat match goal with
    | H : _ = true |- _ => rewrite H; simpl
    end;
    case_match; try done; case_bool_decide; try done; congruence.
Qed.

Lemma mismatched_form_rejected_witness :
  approve_request accepting 1 (ApproveRequestForm.mk (Some 2) 1) 100
    admin_user queued_db
  = (Redirect "admin.requests_queue"
       "Could not process request approval. Please recheck the form."
       "danger", queued_db)
  ∧ complete_return accepting 1 (CompleteReturnForm.mk None) 100
      admin_user (loaned_db "return_requested")
    = (InternalError, loaned_db "return_requested").
Proof.
  split.
  - destruct (mismatched_form_rejected accepting queued_db admin_user)
      as (H & _ & _); [concrete|].
    apply (H 1 (ApproveRequestForm.mk (Some 2) 1) 100); concrete.
  - destruct (mismatched_form_rejected accepting
                (loaned_db "return_requested") admin_user)
      as (_ & _ & H); [concrete|].
    apply (H 1 (CompleteReturnForm.mk None) 100); concrete.
Defined.

(** ** The choices offered to the admin *)

Lemma available_choice_ids order_by_name db k :
  (∀ l, order_by_name l ≡ₚ l) →
  k ∈ (_available_item_choices order_by_name db).*1
  ↔ ∃ item, items db !! k = Some item
            ∧ 0 < InventoryItem.quantity_available item.
Proof.
  intros Hperm. unfold _available_item_choices.
  rewrite <-list_fmap_compose.
  rewrite list_elem_of_fmap. split.
  - intros ([k' item] & -> & Hin). simpl.
    rewrite Hperm in Hin.
    apply elem_of_map_to_list, map_lookup_filter_Some in Hin as [Hk Hq].
    by exists item.
  - intros (item & Hk & Hq). exists (k, item). split; [done|].
    rewrite Hperm. apply elem_of_map_to_list, map_lookup_filter_Some.
    by split.
Qed.

Lemma staff_choice_ids order_by_full_name db k :
  (∀ l, order_by_full_name l ≡ₚ l) →
  k ∈ (_staff_choices order_by_full_name db).*1 ↔ is_Some (staff db !! k).
Proof.
  intros Hperm. unfold _staff_choices.
  rewrite <-list_fmap_compose.
  rewrite list_elem_of_fmap. split.
  - intros ([k' member] & -> & Hin). simpl.
    rewrite Hperm in Hin. apply elem_of_map_to_list in Hin. by exists member.
  - intros [member Hk]. exists (k, member). split; [done|].
    rewrite Hperm. by apply elem_of_map_to_list.
Qed.

(** X18. The item choices are exactly the inventory rows with a positive
    quantity, each offered once, under its key and with the label
    "<name> Â· <quantity> available"; the staff choices are exactly the
    rows of the staff table under their full names.  This holds whatever
    the order in which the database returns the rows. *)
Theorem choices_are_the_available_rows order_by_name order_by_full_name
    (db : Db) :
  (∀ l, order_by_name l ≡ₚ l) →
  (∀ l, order_by_full_name l ≡ₚ l) →
  (∀ k label,
     (k, label) ∈ _available_item_choices order_by_name db
     ↔ ∃ item,
         items db !! k = Some item
         ∧ 0 < InventoryItem.quantity_available item
         ∧ label = InventoryItem.name item +:+ " Â· "
                     +:+ pretty (InventoryItem.quantity_available item)
                     +:+ " available")
  ∧ NoDup (_available_item_choices order_by_name db).*1
  ∧ (∀ k label,
     (k, label) ∈ _staff_choices order_by_full_name db
     ↔ ∃ member,
         staff db !! k = Some member ∧ label = StaffUser.full_name member)
  ∧ NoDup (_staff_choices order_by_full_name db).*1.
Proof.
  intros Hitems Hstaff.
  unfold _available_item_choices, _staff_choices.
  rewrite <-!list_fmap_compose.
  split; [|split; [|split]].
  - intros k label. rewrite list_elem_of_fmap. split.
    + intros ([k' item] & [= -> ->] & Hin). simpl.
      rewrite Hitems in Hin.
      apply elem_of_map_to_list, map_lookup_filter_Some in Hin as [Hk Hq].
      by exists item.
    + intros (item & Hk & Hq & ->). exists (k, item). split; [done|].
      rewrite Hitems. apply elem_of_map_to_list, map_lookup_filter_Some.
      by split.
  - match goal with
    | |- NoDup (?g <$> ?l) => rewrite (list_fmap_ext g fst l) by done
    end.
    rewrite Hitems. apply NoDup_fst_map_to_list.
  - intros k label. rewrite list_elem_of_fmap. split.
    + intros ([k' member] & [= -> ->] & Hin). simpl.
      rewrite Hstaff in Hin. apply elem_of_map_to_list in Hin.
      by exists member.
    + intros (member & Hk & ->). exists (k, member). split; [done|].
      rewrite Hstaff. by apply elem_of_map_to_list.
  - match goal with
    | |- NoDup (?g <$> ?l) => rewrite (list_fmap_ext g fst l) by done
    end.
    rewrite Hstaff. apply NoDup_fst_map_to_list.
Qed.

Lemma choices_are_the_available_rows_witness :
  ((1, "Oscilloscope Â· 2 available")
     ∈ _available_item_choices (λ l, l) queued_db)
  ∧ NoDup (_available_item_choices (λ l, l) queued_db).*1
  ∧ (7, "Asha") ∈ _staff_choices (λ l, l) queued_db.
Proof.
  destruct (choices_are_the_available_rows (λ l, l) (λ l, l) queued_db)
    as (Hitems & Hnodup & Hstaff & _); [done..|].
  split; [|split; [exact Hnodup|]].
  - apply Hitems. exists (InventoryItem.mk "Oscilloscope" 2).
    split; [reflexivity|]. split; [simpl; lia | vm_compute; reflexivity].
  - apply Hstaff. by exists (StaffUser.mk "Asha").
Defined.

Lemma selecting_selects_items order_by_name order_by_full_name :
  selects_offered_items order_by_name
    (selecting order_by_name order_by_full_name).
Proof.
  split; intros db form H; simpl in H.
  - by apply bool_decide_eq_true in H.
  - apply andb_true_iff in H as [H _]. by apply bool_decide_eq_true in H.
Qed.

Lemma selecting_selects_staff order_by_name order_by_full_name :
  selects_offered_staff order_by_full_name
    (selecting order_by_name order_by_full_name).
Proof.
  intros db form H; simpl in H.
  apply andb_true_iff in H as [_ H]. by apply bool_decide_eq_true in H.
Qed.

(** X19. When the forms validate a selected item and a selected staff
    member only if the handler offered them as choices, the availability
    guard never fires: a validated approval is never answered "Item is no
    longer available." and succeeds whenever its request is pending, and
    a validated manual assignment always succeeds. *)
Theorem offered_choice_never_refused order_by_name order_by_full_name forms
    (db : Db) u :
  (∀ l, order_by_name l ≡ₚ l) →
  (∀ l, order_by_full_name l ≡ₚ l) →
  selects_offered_items order_by_name forms →
  selects_offered_staff order_by_full_name forms →
  logged_in "admin" u →
  (∀ request_id form utcnow,
     approve_validate_on_submit forms db form = true →
     (approve_request forms request_id form utcnow u db).1 ≠ ItemUnavailable
     ∧ (∀ request_record,
          ApproveRequestForm.request_id form = Some request_id →
          requests db !! request_id = Some request_record →
          ItemRequest.status request_record = "pending" →
          succeeded (approve_request forms request_id form utcnow u db).1))
  ∧ (∀ form utcnow,
     manual_validate_on_submit forms db form = true →
     succeeded (manual_assignment forms form utcnow u db).1).
Proof.
  intros Hitems Hstaff [Happrove Hmanual] Hmember Hu. split.
  - intros request_id form utcnow Hv.
    destruct (proj1 (available_choice_ids order_by_name db _ Hitems)
                (Happrove db form Hv)) as (item & Hi & Hq).
    split.
    + revert Hu Hv Hi Hq. clear. intros Hu Hv Hi Hq.
      destruct Hu as [Ha Hr].
      unfold approve_request, login_required, admin_only, AlreadyProcessed,
        ItemUnavailable.
      rewrite Ha, Hr, Hv, Hi. simpl.
      repeat case_match; simpl; try done. case_bool_decide; [lia|done].
    + intros request_record Hf Hr Hp.
      by rewrite (approve_request_ok forms db u request_id form utcnow
                    request_record item).
  - intros form utcnow Hv.
    destruct (proj1 (available_choice_ids order_by_name db _ Hitems)
                (Hmanual db form Hv)) as (item & Hi & Hq).
    destruct (proj1 (staff_choice_ids order_by_full_name db _ Hstaff)
                (Hmember db form Hv)) as [member Hs].
    by rewrite (manual_assignment_ok forms db u form utcnow item member).
Qed.

Lemma offered_choice_never_refused_witness :
  succeeded
    (approve_request (selecting (λ l, l) (λ l, l)) 1
       (ApproveRequestForm.mk (Some 1) 1) 100 admin_user queued_db).1
  ∧ succeeded
      (manual_assignment (selecting (λ l, l) (λ l, l))
         (ManualAssignmentForm.mk 1 7) 100 admin_user queued_db).1.
Proof.
  destruct (offered_choice_never_refused (λ l, l) (λ l, l)
              (selecting (λ l, l) (λ l, l)) queued_db admin_user)
    as [Happrove Hmanual];
    [ done | done | apply selecting_selects_items
    | apply selecting_selects_staff | concrete | ].
  split.
  - destruct (Happrove 1 (ApproveRequestForm.mk (Some 1) 1) 100) as [_ H];
      [vm_compute; reflexivity|].
    apply (H (pending_request 7 "lab")); concrete.
  - apply Hmanual. vm_compute. reflexivity.
Defined.

Lemma no_choice_no_stock order_by_name db k item :
  (∀ l, order_by_name l ≡ₚ l) →
  _available_item_choices order_by_name db = [] →
  items db !! k = Some item →
  InventoryItem.quantity_available item ≤ 0.
Proof.
  intros Hperm Hempty Hk.
  destruct (decide (0 < InventoryItem.quantity_available item)) as [Hq|]; [|lia].
  assert (k ∈ (_available_item_choices order_by_name db).*1) as Hin
    by (apply available_choice_ids; eauto).
  rewrite Hempty in Hin. by apply elem_of_nil in Hin.
Qed.

(** X20. When the list of item choices is empty (the requests page then
    reports that there is no inventory), no approval and no manual
    assignment goes through, whoever calls and whatever the form: the
    call does not succeed and the store is unchanged. *)
Theorem nothing_to_allocate order_by_name forms (db : Db) :
  (∀ l, order_by_name l ≡ₚ l) →
  _available_item_choices order_by_name db = [] →
  (∀ u request_id form utcnow,
     ¬ succeeded (approve_request forms request_id form utcnow u db).1
     ∧ (approve_request forms request_id form utcnow u db).2 = db)
  ∧ (∀ u form utcnow,
     ¬ succeeded (manual_assignment forms form utcnow u db).1
     ∧ (manual_assignment forms form utcnow u db).2 = db).
Proof.
  intros Hperm Hempty.
  pose proof (λ k item, no_choice_no_stock order_by_name db k item Hperm Hempty)
    as Hnone.
  split; intros; handler_cases; try (split; [by intros ?|done]);
    match goal with
    | H : items db !! _ = Some _ |- _ => apply Hnone in H; lia
    end.
Qed.

Lemma nothing_to_allocate_witness :
  ¬ succeeded
      (approve_request accepting 1 (ApproveRequestForm.mk (Some 1) 1) 100
         admin_user
         (set_items (<[1 := InventoryItem.mk "Oscilloscope" 0]>) queued_db)).1
  ∧ (manual_assignment accepting (ManualAssignmentForm.mk 1 7) 100 admin_user
       (set_items (<[1 := InventoryItem.mk "Oscilloscope" 0]>) queued_db)).2
    = set_items (<[1 := InventoryItem.mk "Oscilloscope" 0]>) queued_db.
Proof.
  destruct (nothing_to_allocate (λ l, l) accepting
              (set_items (<[1 := InventoryItem.mk "Oscilloscope" 0]>) queued_db))
    as [Happrove Hmanual]; [done | vm_compute; reflexivity |].
  split.
  - apply (Happrove admin_user 1 (ApproveRequestForm.mk (Some 1) 1) 100).
  - apply (Hmanual admin_user (ManualAssignmentForm.mk 1 7) 100).
Defined.

(** ** The counters of the admin pages *)

Ltac settle_indicators :=
  unfold indicator in *; simpl in *;
  repeat case_decide; simplify_eq/=;
  first [ lia | congruence | set_solver ].

Ltac count_overwrite P :=
  match goal with
  | H : ?m !! ?k = Some ?y |- context [ filter P (<[?k := ?x]> ?m) ] =>
      let E := fresh "E" in
      pose proof (size_filter_insert_over P m k x y H) as E
  end.

(** X21. The counter of pending requests shown on the admin dashboard
    goes up by one with a submission that is stored, down by one with an
    approval or a rejection that goes through, and is left alone by every
    other call, refused calls included. *)
Theorem pending_requests_counter forms strip (op : Op) (db : Db) :
  let result := run_op forms strip op db in
  match op with
  | SubmitRequest _ _ =>
      pending_requests result.2
      = (pending_requests db + indicator (announces_commit result.1))%nat
  | ApproveRequest _ _ _ _ | RejectRequest _ _ _ =>
      (pending_requests result.2 + indicator (announces_commit result.1))%nat
      = pending_requests db
  | _ => pending_requests result.2 = pending_requests db
  end.
Proof.
  unfold pending_requests.
  destruct op; handler_cases; try done; try settle_indicators.
  - rewrite size_filter_insert_fresh by apply next_id_fresh.
    settle_indicators.
  - count_overwrite (λ kv : Z * ItemRequest.t,
                       ItemRequest.status kv.2 = "pending").
    settle_indicators.
  - count_overwrite (λ kv : Z * ItemRequest.t,
                       ItemRequest.status kv.2 = "pending").
    settle_indicators.
Qed.

(** X22. The counters of assignments: an approval or a manual assignment
    that goes through adds one to the active assignments of the reports
    page; a return request that goes through moves one from the active
    assignments to the pending returns of the dashboard; a completed
    return takes one off the pending returns; every other call, refused
    calls included, leaves both counters alone. *)
Theorem assignment_counters forms strip (op : Op) (db : Db) :
  let result := run_op forms strip op db in
  let went_through := indicator (announces_commit result.1) in
  match op with
  | ApproveRequest _ _ _ _ | ManualAssign _ _ _ =>
      active_assignments result.2 = (active_assignments db + went_through)%nat
      ∧ pending_returns result.2 = pending_returns db
  | RequestReturn _ _ =>
      (active_assignments result.2 + went_through)%nat = active_assignments db
      ∧ pending_returns result.2 = (pending_returns db + went_through)%nat
  | CompleteReturn _ _ _ _ =>
      active_assignments result.2 = active_assignments db
      ∧ (pending_returns result.2 + went_through)%nat = pending_returns db
  | SubmitRequest _ _ | RejectRequest _ _ _ =>
      active_assignments result.2 = active_assignments db
      ∧ pending_returns result.2 = pending_returns db
  end.
Proof.
  unfold active_assignments, pending_returns.
  destruct op; handler_cases; try (split; settle_indicators);
    try (rewrite !size_filter_insert_fresh by apply next_id_fresh;
         split; settle_indicators);
    count_overwrite (λ kv : Z * ItemAssignment.t,
                       ItemAssignment.status kv.2 = "assigned");
    count_overwrite (λ kv : Z * ItemAssignment.t,
                       ItemAssignment.status kv.2 = "return_requested");
    split; settle_indicators.
Qed.

Lemma quantity_sum_insert (m : gmap Z InventoryItem.t) k x y :
  m !! k = Some x →
  map_fold (λ _ item total, InventoryItem.quantity_available item + total)
    0 (<[k := y]> m)
  = map_fold (λ _ item total, InventoryItem.quantity_available item + total)
      0 m
    - InventoryItem.quantity_available x + InventoryItem.quantity_available y.
Proof.
  intros Hk.
  rewrite (map_fold_delete_L _ 0 k x m); [|intros; lia|done].
  rewrite <-insert_delete_eq.
  rewrite map_fold_insert_L; [lia|intros; lia|apply lookup_delete_eq].
Qed.

Lemma is_Some_insert_item (m : gmap Z InventoryItem.t) j y x :
  is_Some (m !! x) → is_Some (<[j := y]> m !! x).
Proof. intros. apply lookup_insert_is_Some'. by right. Qed.

Lemma run_op_references forms strip op db :
  references_inventory db →
  references_inventory (run_op forms strip op db).2.
Proof.
  unfold references_inventory. intros Hinv.
  destruct op; handler_cases; try done;
    repeat first
      [ exact Hinv
      | apply map_Forall_insert_2; simpl
      | by rewrite lookup_insert_eq
      | by eexists
      | apply is_Some_insert_item
      | (eapply map_Forall_impl; [exact Hinv|]; simpl; intros ? ? ?;
         by apply is_Some_insert_item)
      | match goal with
        | H : assignments _ !! _ = Some ?a
          |- is_Some (_ !! ItemAssignment.item_id ?a) =>
            apply Hinv in H; exact H
        end ].
Qed.

Lemma run_op_units forms strip op db :
  references_inventory db →
  units_accounted (run_op forms strip op db).2 = units_accounted db.
Proof.
  unfold references_inventory, units_accounted, inventory_quantity,
    active_assignments, pending_returns.
  intros Hinv.
  destruct op; handler_cases; try done;
    try (erewrite quantity_sum_insert by done);
    try rewrite !size_filter_insert_fresh by apply next_id_fresh;
    try (count_overwrite (λ kv : Z * ItemAssignment.t,
                            ItemAssignment.status kv.2 = "assigned");
         count_overwrite (λ kv : Z * ItemAssignment.t,
                            ItemAssignment.status kv.2 = "return_requested"));
    try match goal with
    | H : assignments db !! _ = Some ?a,
      H' : items db !! ItemAssignment.item_id ?a = None |- _ =>
        apply Hinv in H; simpl in H; rewrite H' in H; by destruct H
    end;
    settle_indicators.
Qed.

(** X23. In a store where every assignment references an existing
    inventory row, no sequence of the six operations changes what the
    admin pages account for in total: the sum of the quantities on the
    dashboard plus the active assignments of the reports plus the pending
    returns of the dashboard stays the same, and every assignment still
    references an existing row. *)
Theorem units_accounted_conserved forms strip (ops : list Op) (db : Db) :
  references_inventory db →
  references_inventory (run_ops forms strip ops db)
  ∧ inventory_quantity (run_ops forms strip ops db)
    + Z.of_nat (active_assignments (run_ops forms strip ops db))
    + Z.of_nat (pending_returns (run_ops forms strip ops db))
    = inventory_quantity db
      + Z.of_nat (active_assignments db) + Z.of_nat (pending_returns db).
Proof.
  fold (units_accounted (run_ops forms strip ops db)).
  fold (units_accounted db).
  revert db. induction ops as [|op ops IH]; intros db Hinv; simpl; [done|].
  destruct (IH (run_op forms strip op db).2) as [Href Hsum];
    [by apply run_op_references|].
  split; [done|]. rewrite Hsum. by apply run_op_units.
Qed.

Lemma units_accounted_conserved_witness :
  inventory_quantity (loaned_db "assigned") = 1
  ∧ active_assignments (loaned_db "assigned") = 1%nat
  ∧ inventory_quantity
      (run_ops accepting (λ s, s)
         [ RequestReturn (staff_user 7) 1;
           ManualAssign admin_user (ManualAssignmentForm.mk 1 7) 150;
           CompleteReturn admin_user 1 (CompleteReturnForm.mk (Some 1)) 200 ]
         (loaned_db "assigned"))
    + Z.of_nat (active_assignments
        (run_ops accepting (λ s, s)
           [ RequestReturn (staff_user 7) 1;
             ManualAssign admin_user (ManualAssignmentForm.mk 1 7) 150;
             CompleteReturn admin_user 1 (CompleteReturnForm.mk (Some 1)) 200 ]
           (loaned_db "assigned")))
    + Z.of_nat (pending_returns
        (run_ops accepting (λ s, s)
           [ RequestReturn (staff_user 7) 1;
             ManualAssign admin_user (ManualAssignmentForm.mk 1 7) 150;
             CompleteReturn admin_user 1 (CompleteReturnForm.mk (Some 1)) 200 ]
           (loaned_db "assigned")))
    = 1 + 1 + 0.
Proof.
  split; [vm_compute; reflexivity|]. split; [vm_compute; reflexivity|].
  apply (units_accounted_conserved accepting (λ s, s) _ (loaned_db "assigned")).
  apply map_Forall_singleton. by eexists.
Defined.

(** ** Commits from a stale session *)

Lemma commit_nonneg session db :
  match session with
  | Allocating _ _ item _ _ => 0 < InventoryItem.quantity_available item
  | Returned _ => True
  end →
  quantities_nonneg db → quantities_nonneg (commit session db).2.
Proof.
  unfold quantities_nonneg.
  destruct session as [r|r k item request a]; simpl; [done|].
  intros Hq Hinv. apply map_Forall_lookup. intros j x.
  rewrite lookup_alter. case_decide; [|apply Hinv].
  destruct (items db !! k); simpl; [|done].
  intros [= <-]. simpl. lia.
Qed.

(** X24. Even when the rows a handler loaded are out of date at the time
    it commits (another request committed in between), the commit of an
    approval or of a manual assignment never makes a quantity negative:
    it writes the loaded quantity minus one, and the handler only gets
    that far when the loaded quantity was positive. *)
Theorem stale_commit_keeps_quantities_nonneg forms (db_read db_now : Db) :
  quantities_nonneg db_now →
  (∀ request_id form utcnow u,
     quantities_nonneg
       (commit (approve_request_load forms request_id form utcnow u db_read)
          db_now).2)
  ∧ (∀ form utcnow u,
     quantities_nonneg
       (commit (manual_assignment_load forms form utcnow u db_read) db_now).2).
Proof.
  intros Hinv. split; intros; apply commit_nonneg; try done;
    unfold approve_request_load, manual_assignment_load;
    open_guards; try done; lia.
Qed.

Lemma stale_commit_keeps_quantities_nonneg_witness :
  quantities_nonneg
    (commit
       (approve_request_load accepting 2 (ApproveRequestForm.mk (Some 2) 1)
          100 admin_user last_unit_db)
       (commit
          (approve_request_load accepting 1 (ApproveRequestForm.mk (Some 1) 1)
             100 admin_user last_unit_db)
          last_unit_db).2).2.
Proof.
  destruct (stale_commit_keeps_quantities_nonneg accepting last_unit_db
              (commit
                 (approve_request_load accepting 1
                    (ApproveRequestForm.mk (Some 1) 1) 100 admin_user
                    last_unit_db)
                 last_unit_db).2) as [H _].
  - apply commit_nonneg; [vm_compute; reflexivity|].
    apply map_Forall_singleton. simpl. lia.
  - apply (H 2 (ApproveRequestForm.mk (Some 2) 1) 100 admin_user).
Defined.
